(** * EC2 status logger: a shallow embedding of [lambda/ec2_status_logger.py]

    The Lambda handler lists the EC2 instances of the account, formats one
    text line per instance and stores the report in S3 under a key derived
    from the capture time.  This file embeds the handler as a Rocq function
    over an explicit state (the log of collaborator calls) and an explicit
    world (environment, EC2 answer, clock, S3 behaviour), and proves the
    properties the specification states about it. *)

From Stdlib Require Import ZArith Lia Ascii String Strings.Byte List Decimal DecimalString DecimalN.
From stdpp Require Import base strings list gmap.

Set Warnings "-register-all".

Local Open Scope string_scope.

(** ** Python strings and bytes

    A Python [str] is represented by the sequence of its UTF-8 code units
    (Rocq's [string], a list of 8-bit characters).  Concatenation, [join] and
    [len] of lists of strings commute with that representation, and
    [s.encode("utf-8")] is the passage from characters to raw bytes.  Strings
    that have no UTF-8 encoding (lone surrogates) are outside the model; the
    response parser of the SDK never produces them. *)

Definition LF : string := String "010"%char EmptyString.

Definition newline : byte := x0a.

Definition encode_utf8 (s : string) : list byte := list_byte_of_string s.

(** [sep.join(l)] *)
Definition str_join (sep : string) (l : list string) : string :=
  String.concat sep l.

(** [b.split(sep)] for a one-byte separator: the records of a stored
    object.  The empty object has one (empty) record. *)
Fixpoint bytes_split (sep : byte) (b : list byte) : list (list byte) :=
  match b with
  | [] => [[]]
  | c :: rest =>
      if Byte.eqb c sep then [] :: bytes_split sep rest
      else match bytes_split sep rest with
           | r :: rs => (c :: r) :: rs
           | [] => [[c]]
           end
  end.

(** ** [datetime] and [strftime] *)

Record datetime := {
  year : N;
  month : N;
  day : N;
  hour : N;
  minute : N;
  second : N;
  microsecond : N
}.

(** The invariants of [datetime.datetime] (MINYEAR = 1, MAXYEAR = 9999).
    The day is only bounded by 31: the length of the month plays no role
    in the formatting. *)
Definition valid_datetime (d : datetime) : bool :=
  ((1 <=? year d) && (year d <=? 9999) &&
   (1 <=? month d) && (month d <=? 12) &&
   (1 <=? day d) && (day d <=? 31) &&
   (hour d <=? 23) && (minute d <=? 59) && (second d <=? 59) &&
   (microsecond d <=? 999999))%N.

(** Decimal digits of a number, as [str(n)]. *)
Definition str_of_int (n : N) : string :=
  NilEmpty.string_of_uint (N.to_uint n).

Fixpoint zeros (n : nat) : string :=
  match n with
  | O => ""
  | S k => String "0"%char (zeros k)
  end.

(** [s.zfill(width)] on a string of digits. *)
Definition zfill (width : nat) (s : string) : string :=
  zeros (width - String.length s) ++ s.

(** One conversion directive of [strftime], as the C library of the Linux
    runtime formats it.  [%Y] is the year in decimal without padding (a year
    below 1000 has fewer than four digits); the other numeric directives are
    zero-padded to two digits. *)
Definition directive (c : ascii) (d : datetime) : option string :=
  if Ascii.eqb c "Y" then Some (str_of_int (year d))
  else if Ascii.eqb c "m" then Some (zfill 2 (str_of_int (month d)))
  else if Ascii.eqb c "d" then Some (zfill 2 (str_of_int (day d)))
  else if Ascii.eqb c "H" then Some (zfill 2 (str_of_int (hour d)))
  else if Ascii.eqb c "M" then Some (zfill 2 (str_of_int (minute d)))
  else if Ascii.eqb c "S" then Some (zfill 2 (str_of_int (second d)))
  else if Ascii.eqb c "%" then Some "%"
  else None.

(** [d.strftime(fmt)]: literal characters are copied, [%x] is replaced by
    the directive's text; a directive this model does not know is copied
    unchanged. *)
Fixpoint strftime (fmt : string) (d : datetime) : string :=
  match fmt with
  | EmptyString => ""
  | String c rest =>
      if Ascii.eqb c "%" then
        match rest with
        | String x rest' =>
            match directive x d with
            | Some s => s ++ strftime rest' d
            | None => String c (String x (strftime rest' d))
            end
        | EmptyString => String c ""
        end
      else String c (strftime rest d)
  end.

(** ** The response of [ec2.describe_instances()]

    The SDK returns nested dictionaries whose shape is fixed by the service
    model; any key may be absent.  Each dictionary is a record of optional
    fields: [None] is an absent key. *)

Record InstanceState := {
  Code : option Z;
  Name : option string
}.

Record Instance := {
  InstanceId : option string;
  State : option InstanceState
}.

Record Reservation := {
  ReservationId : option string;
  Instances : option (list Instance)
}.

Record DescribeInstancesResult := {
  Reservations : option (list Reservation);
  NextToken : option string
}.

(** [d.get(key, dflt)] on an optional field. *)
Definition dict_get {A : Type} (field : option A) (dflt : A) : A :=
  match field with
  | Some v => v
  | None => dflt
  end.

(** ** The trigger *)

Inductive json :=
| JNull
| JBool (b : bool)
| JNumber (z : Z)
| JString (s : string)
| JArray (items : list json)
| JObject (members : list (string * json)).

Record LambdaContext := {
  function_name : string;
  aws_request_id : string;
  memory_limit_in_mb : Z
}.

(** ** Effects: exceptions, collaborator calls, the world *)

Inductive exception :=
| KeyError (key : string)
| ClientError (operation : string) (code : string)
| EndpointConnectionError (url : string).

(** What the handler did to the outside, in order. *)
Inductive event :=
| DescribeInstances
| UtcNow (t : datetime)
| PutObject (Bucket : string) (Key : string) (Body : list byte).

Inductive outcome (A : Type) :=
| Returned (v : A)
| Raised (e : exception).
Arguments Returned {A} v.
Arguments Raised {A} e.

(** Everything one invocation depends on.  The two SDK clients are built
    when the module is imported; the handler only calls them, and the world
    fixes what they answer.  The clock answers its [n]-th reading with
    [clock n], so that reading it again is observable. *)
Record world := {
  environ : gmap string string;
  describe_instances : outcome DescribeInstancesResult;
  clock : nat -> datetime;
  put_object : string -> string -> list byte -> option exception
}.

Record state := {
  log : list event;
  clock_reads : nat
}.

Definition initial : state := {| log := []; clock_reads := 0 |}.

Definition M (A : Type) : Type := state -> outcome A * state.

Definition ret {A : Type} (v : A) : M A := fun s => (Returned v, s).

Definition raise {A : Type} (e : exception) : M A := fun s => (Raised e, s).

Definition bind {A B : Type} (m : M A) (k : A -> M B) : M B :=
  fun s =>
    match m s with
    | (Returned v, s') => k v s'
    | (Raised e, s') => (Raised e, s')
    end.

Declare Scope py_scope.
Delimit Scope py_scope with py.
Notation "x <~ m ; k" := (bind m (fun x => k))
  (at level 100, m at next level, right associativity) : py_scope.
Local Open Scope py_scope.

Definition emit (e : event) (s : state) : state :=
  {| log := log s ++ [e]; clock_reads := clock_reads s |}.

(** [d[key]] on an optional field. *)
Definition getitem {A : Type} (key : string) (field : option A) : M A :=
  match field with
  | Some v => ret v
  | None => raise (KeyError key)
  end.

Section Handler.

Variable w : world.

(** [os.environ[name]] *)
Definition os_environ (name : string) : M string :=
  match environ w !! name with
  | Some v => ret v
  | None => raise (KeyError name)
  end.

(** [ec2.describe_instances()] *)
Definition ec2_describe_instances : M DescribeInstancesResult :=
  fun s => (describe_instances w, emit DescribeInstances s).

(** [datetime.now(timezone.utc)] *)
Definition datetime_now : M datetime :=
  fun s =>
    let t := clock w (clock_reads s) in
    (Returned t,
     {| log := log s ++ [UtcNow t]; clock_reads := S (clock_reads s) |}).

(** [s3.put_object(Bucket=..., Key=..., Body=...)] *)
Definition s3_put_object (bucket key : string) (body : list byte) : M unit :=
  fun s =>
    (match put_object w bucket key body with
     | Some e => Raised e
     | None => Returned tt
     end,
     emit (PutObject bucket key body) s).

(** The inner loop: [for inst in r.get("Instances", []): ...], with the
    list [lines] that it appends to. *)
Fixpoint for_instances (ts : string) (insts : list Instance)
    (lines : list string) : M (list string) :=
  match insts with
  | [] => ret lines
  | inst :: rest =>
      iid <~ getitem "InstanceId" (InstanceId inst);
      st <~ getitem "State" (State inst);
      state_name <~ getitem "Name" (Name st);
      for_instances ts rest
        (lines ++ [ts ++ " - " ++ iid ++ " - " ++ state_name])
  end.

(** The outer loop: [for r in reservations: ...]. *)
Fixpoint for_reservations (ts : string) (reservations : list Reservation)
    (lines : list string) : M (list string) :=
  match reservations with
  | [] => ret lines
  | r :: rest =>
      lines' <~ for_instances ts (dict_get (Instances r) []) lines;
      for_reservations ts rest lines'
  end.

Definition lambda_handler (event : json) (context : LambdaContext)
    : M (gmap string Z) :=
  bucket <~ os_environ "LOG_BUCKET";
  resp <~ ec2_describe_instances;
  let reservations := dict_get (Reservations resp) [] in
  now <~ datetime_now;
  let ts := strftime "%Y-%m-%dT%H-%M-%SZ" now in
  lines <~ for_reservations ts reservations [];
  let lines :=
    match lines with
    | [] => [ts ++ " - no instances found"]
    | _ :: _ => lines
    end in
  let body := encode_utf8 (str_join LF lines) in
  _ <~ s3_put_object bucket ("logs/ec2_status_" ++ ts ++ ".txt") body;
  ret {[ "count" := Z.of_nat (length lines) ]}.

End Handler.

(** One invocation, from a fresh state. *)
Definition invoke (w : world) (event : json) (context : LambdaContext)
    : outcome (gmap string Z) * state :=
  lambda_handler w event context initial.


(** ** Notions used to state the properties *)

Definition chars (s : string) : list ascii := list_ascii_of_string s.

Definition str_all (p : ascii -> bool) (s : string) : bool :=
  forallb p (chars s).

(** The string has no line feed, so its bytes hold no record separator. *)
Definition newline_free (s : string) : bool :=
  str_all (fun c => negb (Ascii.eqb c "010")) s.

Definition is_digit (c : ascii) : bool :=
  (48 <=? nat_of_ascii c)%nat && (nat_of_ascii c <=? 57)%nat.

(** The characters a formatted timestamp is made of. *)
Definition ts_char (c : ascii) : bool :=
  is_digit c || Ascii.eqb c "-" || Ascii.eqb c "T" || Ascii.eqb c "Z".

(** The pattern [YYYY-MM-DDTHH-MM-SSZ], read off a string character by
    character. *)
Definition compact_form (s : string) : bool :=
  match chars s with
  | [y1; y2; y3; y4; s1; m1; m2; s2; d1; d2; t; h1; h2; s3; n1; n2; s4;
     c1; c2; z] =>
      forallb is_digit [y1; y2; y3; y4; m1; m2; d1; d2; h1; h2; n1; n2; c1; c2]
      && forallb (Ascii.eqb "-") [s1; s2; s3; s4]
      && Ascii.eqb t "T" && Ascii.eqb z "Z"
  | _ => false
  end.

(** The format the handler passes to [strftime], and the two strings it
    derives from the captured instant. *)
Definition TS_FORMAT : string := "%Y-%m-%dT%H-%M-%SZ".

Definition timestamp (w : world) : string := strftime TS_FORMAT (clock w 0).

Definition object_key (ts : string) : string := "logs/ec2_status_" ++ ts ++ ".txt".

(** Two instants in the same second. *)
Definition same_second (a b : datetime) : Prop :=
  year a = year b /\ month a = month b /\ day a = day b /\
  hour a = hour b /\ minute a = minute b /\ second a = second b.

(** The flattened instance sequence of a response: reservations in order,
    and the instances of each in order; an absent key counts as []. *)
Definition instances_of (r : Reservation) : list Instance :=
  dict_get (Instances r) [].

Definition reservations_of (resp : DescribeInstancesResult) : list Reservation :=
  dict_get (Reservations resp) [].

Definition flatten (resp : DescribeInstancesResult) : list Instance :=
  concat (map instances_of (reservations_of resp)).

(** The Instance Record of a descriptor that carries both fields. *)
Definition record_of (inst : Instance) : option (string * string) :=
  match InstanceId inst, State inst with
  | Some iid, Some st =>
      match Name st with
      | Some state_name => Some (iid, state_name)
      | None => None
      end
  | _, _ => None
  end.

(** The Instance Records of a sequence of descriptors, when every
    descriptor carries both fields. *)
Fixpoint records_of (insts : list Instance) : option (list (string * string)) :=
  match insts with
  | [] => Some []
  | inst :: rest =>
      match record_of inst, records_of rest with
      | Some r, Some rs => Some (r :: rs)
      | _, _ => None
      end
  end.

Definition format_line (ts : string) (r : string * string) : string :=
  ts ++ " - " ++ fst r ++ " - " ++ snd r.

Definition sentinel (ts : string) : string := ts ++ " - no instances found".

(** The writes of a log, without the bucket: key and body. *)
Fixpoint writes (l : list event) : list (string * list byte) :=
  match l with
  | [] => []
  | PutObject _ k b :: rest => (k, b) :: writes rest
  | _ :: rest => writes rest
  end.

(** A response whose absent list-valued keys are filled with []. *)
Definition fill_reservation (r : Reservation) : Reservation :=
  {| ReservationId := ReservationId r; Instances := Some (instances_of r) |}.

Definition fill_defaults (resp : DescribeInstancesResult) : DescribeInstancesResult :=
  {| Reservations := Some (map fill_reservation (reservations_of resp));
     NextToken := NextToken resp |}.

Definition with_response (w : world) (resp : DescribeInstancesResult) : world :=
  {| environ := environ w;
     describe_instances := Returned resp;
     clock := clock w;
     put_object := put_object w |}.

Definition digits_exactly (k : nat) (s : string) : bool :=
  (String.length s =? k)%nat && str_all is_digit s.

(** The lines of a report: one per Instance Record, or the sentinel. *)
Definition report_lines (ts : string) (recs : list (string * string)) : list string :=
  match recs with
  | [] => [sentinel ts]
  | _ :: _ => map (format_line ts) recs
  end.

Definition descriptor_keys : list string := ["InstanceId"; "State"; "Name"].

Definition after_listing : state :=
  {| log := [DescribeInstances]; clock_reads := 0 |}.

Definition after_clock (w : world) : state :=
  {| log := [DescribeInstances; UtcNow (clock w 0)]; clock_reads := 1 |}.

Definition after_write (w : world) (bucket : string) (lines : list string) : state :=
  {| log := [DescribeInstances; UtcNow (clock w 0);
             PutObject bucket (object_key (timestamp w))
               (encode_utf8 (str_join LF lines))];
     clock_reads := 1 |}.

(** Every invocation ends in one of four ways. *)
Inductive run_shape (w : world) : outcome (gmap string Z) * state -> Prop :=
| Unconfigured :
    environ w !! "LOG_BUCKET" = None ->
    run_shape w (Raised (KeyError "LOG_BUCKET"), initial)
| ListingRaised (bucket : string) (e : exception) :
    environ w !! "LOG_BUCKET" = Some bucket ->
    describe_instances w = Raised e ->
    run_shape w (Raised e, after_listing)
| DescriptorIncomplete (bucket : string) (resp : DescribeInstancesResult) (k : string) :
    environ w !! "LOG_BUCKET" = Some bucket ->
    describe_instances w = Returned resp ->
    records_of (flatten resp) = None ->
    In k descriptor_keys ->
    run_shape w (Raised (KeyError k), after_clock w)
| ReportStored (bucket : string) (resp : DescribeInstancesResult)
    (recs : list (string * string)) :
    environ w !! "LOG_BUCKET" = Some bucket ->
    describe_instances w = Returned resp ->
    records_of (flatten resp) = Some recs ->
    run_shape w
      (match put_object w bucket (object_key (timestamp w))
               (encode_utf8 (str_join LF (report_lines (timestamp w) recs))) with
       | Some e => Raised e
       | None =>
           Returned
             {[ "count" := Z.of_nat (length (report_lines (timestamp w) recs)) ]}
       end,
       after_write w bucket (report_lines (timestamp w) recs)).

(** The descriptor lacks one of the keys the loop subscripts. *)
Definition lacks_field (inst : Instance) : Prop :=
  InstanceId inst = None \/ State inst = None \/
  exists st, State inst = Some st /\ Name st = None.

(** No line feed in the fields the report prints. *)
Definition field_newline_free (f : option string) : bool :=
  match f with
  | Some s => newline_free s
  | None => true
  end.

Definition descriptor_newline_free (inst : Instance) : bool :=
  field_newline_free (InstanceId inst) &&
  match State inst with
  | Some st => field_newline_free (Name st)
  | None => true
  end.

Definition response_newline_free (resp : DescribeInstancesResult) : bool :=
  forallb descriptor_newline_free (flatten resp).

Definition record_newline_free (r : string * string) : bool :=
  newline_free (fst r) && newline_free (snd r).

(** Position of the [j]-th instance of the [i]-th reservation in the
    flattened sequence. *)
Definition position (rs : list Reservation) (i j : nat) : nat :=
  length (concat (map instances_of (take i rs))) + j.

(** ** Concrete worlds *)

Definition noon : datetime :=
  {| year := 2024; month := 3; day := 1;
     hour := 12; minute := 0; second := 0; microsecond := 250000 |}.

Definition descriptor (iid : string) (code : Z) (state_name : string) : Instance :=
  {| InstanceId := Some iid;
     State := Some {| Code := Some code; Name := Some state_name |} |}.

Definition answer (rs : list Reservation) : DescribeInstancesResult :=
  {| Reservations := Some rs; NextToken := None |}.

Definition reservation (insts : list Instance) : Reservation :=
  {| ReservationId := Some "r-0a1"; Instances := Some insts |}.

Definition world_of (listing : outcome DescribeInstancesResult) : world :=
  {| environ := {[ "LOG_BUCKET" := "status-logs" ]};
     describe_instances := listing;
     clock := fun _ => noon;
     put_object := fun _ _ _ => None |}.

(** One reservation with two instances. *)
Definition two_instances : DescribeInstancesResult :=
  answer [reservation [descriptor "i-001" 16 "running";
                       descriptor "i-002" 80 "stopped"]].

(** Two reservations, three instances. *)
Definition three_instances : DescribeInstancesResult :=
  answer [reservation [descriptor "i-001" 16 "running"];
          reservation [descriptor "i-002" 80 "stopped";
                       descriptor "i-003" 0 "pending"]].

(** An instance id that holds a line feed. *)
Definition id_with_line_feed : DescribeInstancesResult :=
  answer [reservation [descriptor ("i-001" ++ LF ++ "x") 16 "running"]].

(** A state name that holds a line feed. *)
Definition state_with_line_feed : DescribeInstancesResult :=
  answer [reservation [descriptor "i-001" 16 ("running" ++ LF)]].

(** A response without [Reservations], one whose only reservation has no
    [Instances], and one whose second descriptor has no [State]. *)
Definition no_reservations_key : DescribeInstancesResult :=
  {| Reservations := None; NextToken := None |}.

Definition no_instances_key : DescribeInstancesResult :=
  answer [ {| ReservationId := Some "r-0a1"; Instances := None |} ].

Definition no_state_key : DescribeInstancesResult :=
  answer [reservation [descriptor "i-001" 16 "running";
                       {| InstanceId := Some "i-002"; State := None |}]].

Definition unconfigured_world : world :=
  {| environ := {[ "AWS_REGION" := "eu-west-1" ]};
     describe_instances := Returned two_instances;
     clock := fun _ => noon;
     put_object := fun _ _ _ => None |}.

Definition access_denied : exception :=
  ClientError "DescribeInstances" "UnauthorizedOperation".

Definition scheduled_event : json :=
  JObject [("source", JString "aws.events"); ("detail", JObject [])].

Definition console_test_event : json := JObject [("key1", JString "value1")].

Definition context_a : LambdaContext :=
  {| function_name := "ec2-status-logger"; aws_request_id := "req-1";
     memory_limit_in_mb := 128 |}.

Definition context_b : LambdaContext :=
  {| function_name := "ec2-status-logger"; aws_request_id := "req-2";
     memory_limit_in_mb := 256 |}.

(** The same second as [noon], later within it. *)
Definition noon_later : datetime :=
  {| year := 2024; month := 3; day := 1;
     hour := 12; minute := 0; second := 0; microsecond := 999000 |}.

(** Another function instance: other bucket, other clock reading, a
    storage service that answers differently. *)
Definition other_world (listing : outcome DescribeInstancesResult) : world :=
  {| environ := {[ "LOG_BUCKET" := "status-logs-replica" ]};
     describe_instances := listing;
     clock := fun _ => noon_later;
     put_object := fun _ _ _ => Some (ClientError "PutObject" "SlowDown") |}.

(** ** Notions for the further properties *)

(** The key a descriptor lacks, in the order the loop body subscripts:
    [inst["InstanceId"]], then [inst["State"]], then [["Name"]]. *)
Definition missing_key (inst : Instance) : option string :=
  match InstanceId inst with
  | None => Some "InstanceId"
  | Some _ =>
      match State inst with
      | None => Some "State"
      | Some st =>
          match Name st with
          | None => Some "Name"
          | Some _ => None
          end
      end
  end.

(** [sep in s] *)
Fixpoint str_contains (sep s : string) : bool :=
  String.prefix sep s ||
  match s with
  | EmptyString => false
  | String _ rest => str_contains sep rest
  end.

(** [int(s)] for a string of decimal digits (0 for any other string). *)
Definition digits_value (s : string) : N :=
  match NilEmpty.uint_of_string s with
  | Some u => N.of_uint u
  | None => 0%N
  end.

(** The reservations of [two_instances], one instance each. *)
Definition two_reservations : DescribeInstancesResult :=
  {| Reservations :=
       Some [ {| ReservationId := Some "r-0a1";
                 Instances := Some [descriptor "i-001" 16 "running"] |};
              {| ReservationId := Some "r-0b2"; Instances := None |};
              {| ReservationId := Some "r-0c3";
                 Instances := Some [descriptor "i-002" 80 "stopped"] |} ];
     NextToken := Some "page-2" |}.

(** A descriptor without state name, followed by one without id. *)
Definition no_name_then_no_id : DescribeInstancesResult :=
  answer [reservation [descriptor "i-001" 16 "running";
                       {| InstanceId := Some "i-002";
                          State := Some {| Code := Some 16%Z; Name := None |} |}];
          reservation [ {| InstanceId := None; State := None |} ]].

(** One second after [noon]. *)
Definition noon_next_second : datetime :=
  {| year := 2024; month := 3; day := 1;
     hour := 12; minute := 0; second := 1; microsecond := 0 |}.

(** ** Strings, bytes and records *)

Lemma chars_app (a b : string) : chars (a ++ b) = (chars a ++ chars b)%list.
Proof.
  unfold chars. induction a as [|c a IH]; simpl; [reflexivity|].
  now rewrite IH.
Qed.

Lemma encode_utf8_chars (s : string) : encode_utf8 s = map byte_of_ascii (chars s).
Proof. reflexivity. Qed.

Lemma encode_utf8_app (a b : string) :
  encode_utf8 (a ++ b) = (encode_utf8 a ++ encode_utf8 b)%list.
Proof. now rewrite !encode_utf8_chars, chars_app, map_app. Qed.

Lemma str_all_app (p : ascii -> bool) (a b : string) :
  str_all p (a ++ b) = str_all p a && str_all p b.
Proof. unfold str_all. now rewrite chars_app, forallb_app. Qed.

Lemma str_all_impl (p q : ascii -> bool) (s : string) :
  (forall c, p c = true -> q c = true) ->
  str_all p s = true -> str_all q s = true.
Proof.
  intros Hpq. unfold str_all. rewrite !forallb_forall. auto.
Qed.

Lemma newline_byte (c : ascii) :
  Byte.eqb (byte_of_ascii c) newline = Ascii.eqb c "010".
Proof.
  destruct (Ascii.eqb_spec c "010") as [->|Hne]; [reflexivity|].
  apply Bool.not_true_is_false. intros Heq. apply Hne.
  apply Byte.byte_dec_bl in Heq.
  rewrite <- (ascii_of_byte_of_ascii c), Heq. reflexivity.
Qed.

Lemma bytes_split_nonempty (sep : byte) (b : list byte) : bytes_split sep b <> [].
Proof.
  destruct b as [|c b]; simpl; [discriminate|].
  destruct (Byte.eqb c sep); [discriminate|].
  destruct (bytes_split sep b); discriminate.
Qed.

(** A string without line feed is one record. *)
Lemma bytes_split_one (s : string) :
  newline_free s = true -> bytes_split newline (encode_utf8 s) = [encode_utf8 s].
Proof.
  rewrite encode_utf8_chars. unfold newline_free, str_all.
  induction (chars s) as [|c l IH]; simpl; [reflexivity|].
  intros H. apply andb_prop in H as [Hc Hl].
  rewrite newline_byte. apply Bool.negb_true_iff in Hc. rewrite Hc.
  now rewrite (IH Hl).
Qed.

(** The first record ends at the first line feed. *)
Lemma bytes_split_cons (l : list ascii) (rest : list byte) :
  forallb (fun c => negb (Ascii.eqb c "010")) l = true ->
  bytes_split newline (map byte_of_ascii l ++ newline :: rest) =
  map byte_of_ascii l :: bytes_split newline rest.
Proof.
  induction l as [|c l IH]; intros H.
  - reflexivity.
  - simpl in H. apply andb_prop in H as [Hc Hl].
    apply Bool.negb_true_iff in Hc.
    cbn [map app bytes_split]. rewrite newline_byte, Hc, (IH Hl). reflexivity.
Qed.

Lemma bytes_split_line (s rest : string) :
  newline_free s = true ->
  bytes_split newline (encode_utf8 (s ++ LF ++ rest)) =
  encode_utf8 s :: bytes_split newline (encode_utf8 rest).
Proof.
  intros H. rewrite !encode_utf8_app.
  change (encode_utf8 LF) with [newline]. cbn [app].
  rewrite (encode_utf8_chars s). now apply bytes_split_cons.
Qed.

(** Splitting a join of line-feed-free lines gives the lines back. *)
Lemma bytes_split_join (lines : list string) :
  lines <> [] ->
  forallb newline_free lines = true ->
  bytes_split newline (encode_utf8 (str_join LF lines)) = map encode_utf8 lines.
Proof.
  induction lines as [|l rest IH]; [congruence|].
  intros _ H. simpl in H. apply andb_prop in H as [Hl Hrest].
  destruct rest as [|l' rest'].
  - simpl. now apply bytes_split_one.
  - change (str_join LF (l :: l' :: rest'))
      with (l ++ LF ++ str_join LF (l' :: rest')).
    rewrite bytes_split_line by assumption.
    rewrite IH by (assumption || discriminate). reflexivity.
Qed.

(** ** The formatted timestamp *)

Lemma string_of_uint_digits (u : Decimal.uint) :
  str_all is_digit (NilEmpty.string_of_uint u) = true.
Proof. induction u; simpl; auto. Qed.

Lemma zeros_digits (n : nat) : str_all is_digit (zeros n) = true.
Proof. induction n; simpl; auto. Qed.

Lemma zfill_digits (width : nat) (n : N) :
  str_all is_digit (zfill width (str_of_int n)) = true.
Proof.
  unfold zfill, str_of_int.
  now rewrite str_all_app, zeros_digits, string_of_uint_digits.
Qed.

Lemma str_of_int_digits (n : N) : str_all is_digit (str_of_int n) = true.
Proof. apply string_of_uint_digits. Qed.

Lemma strftime_unfold (d : datetime) :
  strftime TS_FORMAT d =
  str_of_int (year d) ++ "-" ++
  zfill 2 (str_of_int (month d)) ++ "-" ++
  zfill 2 (str_of_int (day d)) ++ "T" ++
  zfill 2 (str_of_int (hour d)) ++ "-" ++
  zfill 2 (str_of_int (minute d)) ++ "-" ++
  zfill 2 (str_of_int (second d)) ++ "Z".
Proof. reflexivity. Qed.

Lemma digit_ts_char (s : string) :
  str_all is_digit s = true -> str_all ts_char s = true.
Proof.
  apply str_all_impl. intros c Hc. unfold ts_char. now rewrite Hc.
Qed.

(** Whatever the clock says, the timestamp is made of digits, [-], [T]
    and [Z]. *)
Lemma strftime_ts_chars (d : datetime) :
  str_all ts_char (strftime TS_FORMAT d) = true.
Proof.
  rewrite strftime_unfold.
  rewrite !str_all_app, !(digit_ts_char _ (zfill_digits _ _)),
    (digit_ts_char _ (str_of_int_digits _)).
  reflexivity.
Qed.

Lemma ts_char_not_newline (c : ascii) :
  ts_char c = true -> negb (Ascii.eqb c "010") = true.
Proof.
  destruct (Ascii.eqb_spec c "010") as [->|]; [discriminate|reflexivity].
Qed.

Lemma ts_char_not_colon (c : ascii) :
  ts_char c = true -> negb (Ascii.eqb c ":") = true.
Proof.
  destruct (Ascii.eqb_spec c ":") as [->|]; [discriminate|reflexivity].
Qed.

Lemma strftime_newline_free (d : datetime) :
  newline_free (strftime TS_FORMAT d) = true.
Proof.
  exact (str_all_impl _ _ _ ts_char_not_newline (strftime_ts_chars d)).
Qed.

Lemma object_key_no_colon (d : datetime) :
  str_all (fun c => negb (Ascii.eqb c ":")) (object_key (strftime TS_FORMAT d)) = true.
Proof.
  unfold object_key. rewrite !str_all_app.
  rewrite (str_all_impl _ _ _ ts_char_not_colon (strftime_ts_chars d)).
  reflexivity.
Qed.

(** Checked on every number below the bound. *)
Lemma below_checked (p : N -> bool) (bound : N) :
  forallb p (map N.of_nat (seq 0 (N.to_nat bound))) = true ->
  forall n, (n < bound)%N -> p n = true.
Proof.
  intros Hall n Hn. rewrite forallb_forall in Hall. apply Hall.
  rewrite <- (N2Nat.id n). apply in_map, in_seq. lia.
Qed.

Lemma zfill2_two_digits (n : N) :
  (n <= 99)%N -> digits_exactly 2 (zfill 2 (str_of_int n)) = true.
Proof.
  intros Hn.
  apply (below_checked (fun k => digits_exactly 2 (zfill 2 (str_of_int k))) 100);
    [vm_compute; reflexivity | lia].
Qed.

(** A year from 1000 to 9999 is written with four digits. *)
Lemma year_four_digits (n : N) :
  (1000 <= n)%N -> (n <= 9999)%N -> digits_exactly 4 (str_of_int n) = true.
Proof.
  intros Hlo Hhi.
  assert (H : (n <? 1000)%N || digits_exactly 4 (str_of_int n) = true).
  { apply (below_checked
             (fun k => (k <? 1000)%N || digits_exactly 4 (str_of_int k)) 10000);
      [vm_compute; reflexivity | lia]. }
  apply Bool.orb_true_iff in H as [H|H]; [|exact H].
  apply N.ltb_lt in H. lia.
Qed.

Lemma digits_exactly_2 (s : string) :
  digits_exactly 2 s = true ->
  exists a b, s = String a (String b "") /\ is_digit a = true /\ is_digit b = true.
Proof.
  destruct s as [|a [|b [|c s]]]; try discriminate.
  unfold digits_exactly, str_all. simpl. intros H.
  exists a, b. destruct (is_digit a), (is_digit b); try discriminate; auto.
Qed.

Lemma digits_exactly_4 (s : string) :
  digits_exactly 4 s = true ->
  exists a b c d, s = String a (String b (String c (String d ""))) /\
    is_digit a = true /\ is_digit b = true /\ is_digit c = true /\ is_digit d = true.
Proof.
  destruct s as [|a [|b [|c [|d [|e s]]]]]; try discriminate.
  unfold digits_exactly, str_all. simpl. intros H.
  exists a, b, c, d.
  destruct (is_digit a), (is_digit b), (is_digit c), (is_digit d);
    try discriminate; auto.
Qed.

(** For an instant that [datetime] can hold and whose year has four
    digits, the timestamp has the shape [YYYY-MM-DDTHH-MM-SSZ]. *)
Lemma strftime_compact_form (d : datetime) :
  valid_datetime d = true -> (1000 <= year d)%N ->
  compact_form (strftime TS_FORMAT d) = true.
Proof.
  unfold valid_datetime. rewrite !Bool.andb_true_iff, !N.leb_le.
  intros [[[[[[[[[_ Hy] _] Hm] _] Hd] Hh] Hmi] Hs] _] Hy4.
  rewrite strftime_unfold.
  destruct (digits_exactly_4 _ (year_four_digits (year d) Hy4 Hy))
    as (y1 & y2 & y3 & y4 & -> & ? & ? & ? & ?).
  destruct (digits_exactly_2 _ (zfill2_two_digits (month d) ltac:(lia)))
    as (m1 & m2 & -> & ? & ?).
  destruct (digits_exactly_2 _ (zfill2_two_digits (day d) ltac:(lia)))
    as (d1 & d2 & -> & ? & ?).
  destruct (digits_exactly_2 _ (zfill2_two_digits (hour d) ltac:(lia)))
    as (h1 & h2 & -> & ? & ?).
  destruct (digits_exactly_2 _ (zfill2_two_digits (minute d) ltac:(lia)))
    as (n1 & n2 & -> & ? & ?).
  destruct (digits_exactly_2 _ (zfill2_two_digits (second d) ltac:(lia)))
    as (c1 & c2 & -> & ? & ?).
  cbv [compact_form chars String.append list_ascii_of_string forallb].
  repeat match goal with H : is_digit _ = true |- _ => rewrite H; clear H end.
  reflexivity.
Qed.

(** ** The two loops *)

Lemma for_instances_app (ts : string) (a b : list Instance) :
  forall acc s,
    for_instances ts (a ++ b)%list acc s =
    bind (for_instances ts a acc) (for_instances ts b) s.
Proof.
  induction a as [|inst a IH]; intros acc s; [reflexivity|].
  cbn [app for_instances]. unfold bind at 1 4.
  destruct (InstanceId inst) as [iid|]; [|reflexivity]. cbn.
  unfold bind at 1 3.
  destruct (State inst) as [st|]; [|reflexivity]. cbn.
  unfold bind at 1 2.
  destruct (Name st) as [nm|]; [|reflexivity]. cbn.
  apply IH.
Qed.

(** Descriptors that all carry their fields: the loop appends their lines
    and touches nothing else. *)
Lemma for_instances_ok (ts : string) (insts : list Instance) :
  forall recs acc s,
    records_of insts = Some recs ->
    for_instances ts insts acc s =
    (Returned (acc ++ map (format_line ts) recs)%list, s).
Proof.
  induction insts as [|inst insts IH]; intros recs acc s H.
  - cbn in H. injection H as <-. cbn. now rewrite app_nil_r.
  - cbn in H. unfold record_of in H. cbn [for_instances]. unfold bind at 1.
    destruct (InstanceId inst) as [iid|]; [|discriminate]. cbn.
    unfold bind at 1.
    destruct (State inst) as [st|]; [|discriminate]. cbn.
    unfold bind at 1.
    destruct (Name st) as [nm|]; [|discriminate]. cbn.
    destruct (records_of insts) as [recs'|] eqn:Hrest; [|discriminate].
    injection H as <-.
    rewrite (IH recs' _ s eq_refl). cbn [map].
    now rewrite <- app_assoc.
Qed.

(** A descriptor that lacks a field: the loop raises [KeyError] on the
    first such field and touches nothing else. *)
Lemma for_instances_raise (ts : string) (insts : list Instance) :
  forall acc s,
    records_of insts = None ->
    exists k, In k descriptor_keys /\
      for_instances ts insts acc s = (Raised (KeyError k), s).
Proof.
  induction insts as [|inst insts IH]; intros acc s H; [discriminate|].
  cbn in H. unfold record_of in H. cbn [for_instances]. unfold bind at 1.
  destruct (InstanceId inst) as [iid|];
    [|exists "InstanceId"; split; [cbn; auto | reflexivity]].
  cbn. unfold bind at 1.
  destruct (State inst) as [st|];
    [|exists "State"; split; [cbn; auto | reflexivity]].
  cbn. unfold bind at 1.
  destruct (Name st) as [nm|];
    [|exists "Name"; split; [cbn; auto | reflexivity]].
  cbn.
  destruct (records_of insts) as [recs'|] eqn:Hrest; [discriminate|].
  apply IH. reflexivity.
Qed.

(** The nested loops visit the flattened sequence. *)
Lemma for_reservations_flat (ts : string) (rs : list Reservation) :
  forall acc s,
    for_reservations ts rs acc s =
    for_instances ts (concat (map instances_of rs)) acc s.
Proof.
  induction rs as [|r rs IH]; intros acc s; [reflexivity|].
  cbn [for_reservations map concat]. rewrite for_instances_app.
  unfold bind, instances_of.
  destruct (for_instances ts (dict_get (Instances r) []) acc s) as [[ls|e] s'];
    [apply IH | reflexivity].
Qed.

(** ** The handler, case by case *)

Lemma invoke_unconfigured (w : world) (ev : json) (ctx : LambdaContext) :
  environ w !! "LOG_BUCKET" = None ->
  invoke w ev ctx = (Raised (KeyError "LOG_BUCKET"), initial).
Proof.
  intros H. unfold invoke, lambda_handler, bind, os_environ. now rewrite H.
Qed.

Lemma invoke_listing_raised (w : world) (ev : json) (ctx : LambdaContext)
    (bucket : string) (e : exception) :
  environ w !! "LOG_BUCKET" = Some bucket ->
  describe_instances w = Raised e ->
  invoke w ev ctx = (Raised e, after_listing).
Proof.
  intros Hb He.
  unfold invoke, lambda_handler, bind, os_environ, ec2_describe_instances.
  now rewrite Hb, He.
Qed.

(** Once the listing has answered, the rest of the handler is the loop
    over the flattened sequence followed by the write. *)
Lemma invoke_listed (w : world) (ev : json) (ctx : LambdaContext)
    (bucket : string) (resp : DescribeInstancesResult) :
  environ w !! "LOG_BUCKET" = Some bucket ->
  describe_instances w = Returned resp ->
  invoke w ev ctx =
  match for_instances (timestamp w) (flatten resp) [] (after_clock w) with
  | (Returned v, s) =>
      let lines := match v with [] => [sentinel (timestamp w)] | _ :: _ => v end in
      let key := object_key (timestamp w) in
      let body := encode_utf8 (str_join LF lines) in
      (match put_object w bucket key body with
       | Some e => Raised e
       | None => Returned {[ "count" := Z.of_nat (length lines) ]}
       end,
       emit (PutObject bucket key body) s)
  | (Raised e, s) => (Raised e, s)
  end.
Proof.
  intros Hb Hr.
  unfold invoke, lambda_handler, bind, os_environ, ec2_describe_instances,
    datetime_now.
  rewrite Hb, Hr. cbn -[strftime]. rewrite for_reservations_flat.
  change (for_instances _ _ [] _)
    with (for_instances (timestamp w) (flatten resp) [] (after_clock w)).
  destruct (for_instances (timestamp w) (flatten resp) [] (after_clock w))
    as [[v|e] s]; [|reflexivity].
  unfold s3_put_object.
  change (strftime "%Y-%m-%dT%H-%M-%SZ" (clock w 0)) with (timestamp w).
  change ("logs/ec2_status_" ++ timestamp w ++ ".txt")
    with (object_key (timestamp w)).
  change (timestamp w ++ " - no instances found") with (sentinel (timestamp w)).
  cbv zeta.
  destruct (put_object w bucket _ _); reflexivity.
Qed.

Lemma invoke_descriptor_incomplete (w : world) (ev : json) (ctx : LambdaContext)
    (bucket : string) (resp : DescribeInstancesResult) :
  environ w !! "LOG_BUCKET" = Some bucket ->
  describe_instances w = Returned resp ->
  records_of (flatten resp) = None ->
  exists k, In k descriptor_keys /\
    invoke w ev ctx = (Raised (KeyError k), after_clock w).
Proof.
  intros Hb Hr Hnone.
  destruct (for_instances_raise (timestamp w) _ [] (after_clock w) Hnone)
    as (k & Hk & Hloop).
  exists k. split; [assumption|].
  now rewrite (invoke_listed w ev ctx bucket resp Hb Hr), Hloop.
Qed.

Lemma invoke_written (w : world) (ev : json) (ctx : LambdaContext)
    (bucket : string) (resp : DescribeInstancesResult)
    (recs : list (string * string)) :
  environ w !! "LOG_BUCKET" = Some bucket ->
  describe_instances w = Returned resp ->
  records_of (flatten resp) = Some recs ->
  invoke w ev ctx =
  (match put_object w bucket (object_key (timestamp w))
           (encode_utf8 (str_join LF (report_lines (timestamp w) recs))) with
   | Some e => Raised e
   | None =>
       Returned {[ "count" := Z.of_nat (length (report_lines (timestamp w) recs)) ]}
   end,
   after_write w bucket (report_lines (timestamp w) recs)).
Proof.
  intros Hb Hr Hrecs.
  rewrite (invoke_listed w ev ctx bucket resp Hb Hr).
  rewrite (for_instances_ok (timestamp w) _ recs [] (after_clock w) Hrecs).
  destruct recs as [|r recs]; reflexivity.
Qed.

Lemma invoke_shape (w : world) (ev : json) (ctx : LambdaContext) :
  run_shape w (invoke w ev ctx).
Proof.
  destruct (environ w !! "LOG_BUCKET") as [bucket|] eqn:Hb.
  - destruct (describe_instances w) as [resp|e] eqn:Hr.
    + destruct (records_of (flatten resp)) as [recs|] eqn:Hrecs.
      * rewrite (invoke_written w ev ctx bucket resp recs Hb Hr Hrecs).
        now apply ReportStored with resp.
      * destruct (invoke_descriptor_incomplete w ev ctx bucket resp Hb Hr Hrecs)
          as (k & Hk & ->).
        now apply DescriptorIncomplete with bucket resp.
    + rewrite (invoke_listing_raised w ev ctx bucket e Hb Hr).
      now apply ListingRaised with bucket.
  - rewrite (invoke_unconfigured w ev ctx Hb). now apply Unconfigured.
Qed.

(** ** Records and lines *)

Lemma records_of_length (insts : list Instance) :
  forall recs, records_of insts = Some recs -> length recs = length insts.
Proof.
  induction insts as [|inst insts IH]; intros recs H; cbn in H.
  - now injection H as <-.
  - destruct (record_of inst); [|discriminate].
    destruct (records_of insts) as [rs|]; [|discriminate].
    injection H as <-. cbn. f_equal. now apply IH.
Qed.

Lemma records_of_lookup (insts : list Instance) :
  forall recs i inst,
    records_of insts = Some recs ->
    insts !! i = Some inst ->
    exists r, record_of inst = Some r /\ recs !! i = Some r.
Proof.
  induction insts as [|x insts IH]; intros recs i inst H Hi; [discriminate|].
  cbn in H.
  destruct (record_of x) as [rx|] eqn:Hx; [|discriminate].
  destruct (records_of insts) as [rs|]; [|discriminate].
  injection H as <-.
  destruct i as [|i]; cbn in Hi.
  - injection Hi as <-. now exists rx.
  - destruct (IH rs i inst eq_refl Hi) as (r & Hr & Hl). now exists r.
Qed.

Lemma record_of_None (inst : Instance) :
  record_of inst = None <-> lacks_field inst.
Proof.
  unfold record_of, lacks_field.
  destruct (InstanceId inst) as [iid|]; [|split; auto].
  destruct (State inst) as [st|]; [|split; auto].
  destruct (Name st) as [nm|] eqn:Hn.
  - split; [discriminate|].
    intros [H|[H|(st' & H & H')]]; try discriminate.
    injection H as <-. congruence.
  - split; [|reflexivity]. intros _. right. right. now exists st.
Qed.

Lemma records_of_None (insts : list Instance) :
  records_of insts = None <-> exists inst, In inst insts /\ lacks_field inst.
Proof.
  induction insts as [|x insts IH]; cbn.
  - split; [discriminate|]. intros (inst & [] & _).
  - destruct (record_of x) as [rx|] eqn:Hx.
    + destruct (records_of insts) as [rs|].
      * split; [discriminate|]. intros (inst & [<-|Hin] & Hl).
        -- apply record_of_None in Hl. congruence.
        -- enough (Some rs = None) by discriminate.
           apply IH. now exists inst.
      * split; [|reflexivity]. intros _.
        destruct (proj1 IH eq_refl) as (inst & Hin & Hl).
        exists inst. auto.
    + split; [|reflexivity]. intros _. exists x. split; [auto|].
      now apply record_of_None.
Qed.

Lemma lookup_map {A B : Type} (f : A -> B) (l : list A) (i : nat) :
  map f l !! i = option_map f (l !! i).
Proof.
  revert i. induction l as [|x l IH]; intros [|i]; cbn; auto.
Qed.

Lemma report_lines_nonempty (ts : string) (recs : list (string * string)) :
  recs <> [] -> report_lines ts recs = map (format_line ts) recs.
Proof. destruct recs; [congruence|reflexivity]. Qed.

Lemma report_lines_length (ts : string) (recs : list (string * string)) :
  1 <= length (report_lines ts recs).
Proof. destruct recs; cbn; lia. Qed.

Lemma newline_free_app (a b : string) :
  newline_free (a ++ b) = newline_free a && newline_free b.
Proof. apply str_all_app. Qed.

Lemma format_line_newline_free (ts : string) (r : string * string) :
  newline_free ts = true -> record_newline_free r = true ->
  newline_free (format_line ts r) = true.
Proof.
  unfold record_newline_free, format_line. intros Hts Hr.
  apply andb_prop in Hr as [H1 H2].
  rewrite !newline_free_app, Hts, H1, H2. reflexivity.
Qed.

Lemma sentinel_newline_free (ts : string) :
  newline_free ts = true -> newline_free (sentinel ts) = true.
Proof.
  unfold sentinel. intros Hts. rewrite newline_free_app, Hts. reflexivity.
Qed.

Lemma records_newline_free (insts : list Instance) :
  forall recs,
    records_of insts = Some recs ->
    forallb descriptor_newline_free insts = true ->
    forallb record_newline_free recs = true.
Proof.
  induction insts as [|x insts IH]; intros recs H Hnf; cbn in H.
  - now injection H as <-.
  - destruct (record_of x) as [rx|] eqn:Hx; [|discriminate].
    destruct (records_of insts) as [rs|]; [|discriminate].
    injection H as <-. cbn in Hnf. apply andb_prop in Hnf as [Hx' Hrest].
    cbn. rewrite (IH rs eq_refl Hrest), Bool.andb_true_r.
    unfold record_of in Hx. unfold descriptor_newline_free in Hx'.
    destruct (InstanceId x) as [iid|]; [|discriminate].
    destruct (State x) as [st|]; [|discriminate].
    destruct (Name st) as [nm|]; [|discriminate].
    injection Hx as <-. exact Hx'.
Qed.

Lemma report_lines_newline_free (ts : string) (recs : list (string * string)) :
  newline_free ts = true ->
  forallb record_newline_free recs = true ->
  forallb newline_free (report_lines ts recs) = true.
Proof.
  intros Hts Hrecs. destruct recs as [|r recs].
  - cbn. now rewrite sentinel_newline_free.
  - unfold report_lines. rewrite forallb_forall in *.
    intros l Hl. apply in_map_iff in Hl as (r' & <- & Hr').
    apply format_line_newline_free; auto.
Qed.

(** The records of a stored report are its lines, when no printed field
    holds a line feed. *)
Lemma report_records (ts : string) (resp : DescribeInstancesResult)
    (recs : list (string * string)) :
  newline_free ts = true ->
  records_of (flatten resp) = Some recs ->
  response_newline_free resp = true ->
  bytes_split newline (encode_utf8 (str_join LF (report_lines ts recs))) =
  map encode_utf8 (report_lines ts recs).
Proof.
  intros Hts Hrecs Hnf. apply bytes_split_join.
  - destruct recs; discriminate.
  - apply report_lines_newline_free; [assumption|].
    now apply records_newline_free with (flatten resp).
Qed.

(** * The properties of the specification *)

(** ** One line per instance *)

(** C1 (as amended).  When the listing answers with a nonempty flattened
    sequence of N descriptors that all carry their id and state name, the
    body handed to the storage write is the UTF-8 encoding of N lines joined
    by line feeds, the i-th line being [{timestamp} - {instance_id} - {state}]
    for the i-th flattened instance, with the timestamp of the single clock
    reading on every line.  When moreover no instance id or state name holds
    a line feed, the newline-separated records of the body are exactly these
    N lines. *)
Theorem report_has_one_line_per_instance
    (w : world) (ev : json) (ctx : LambdaContext)
    (bucket : string) (resp : DescribeInstancesResult)
    (recs : list (string * string)) :
  environ w !! "LOG_BUCKET" = Some bucket ->
  describe_instances w = Returned resp ->
  records_of (flatten resp) = Some recs ->
  flatten resp <> [] ->
  exists lines : list string,
    log (snd (invoke w ev ctx)) =
      [DescribeInstances; UtcNow (clock w 0);
       PutObject bucket (object_key (timestamp w))
         (encode_utf8 (str_join LF lines))] /\
    length lines = length (flatten resp) /\
    (forall i inst,
        flatten resp !! i = Some inst ->
        exists iid state_name,
          record_of inst = Some (iid, state_name) /\
          lines !! i =
            Some (strftime TS_FORMAT (clock w 0) ++ " - " ++ iid ++ " - " ++ state_name)) /\
    (response_newline_free resp = true ->
     bytes_split newline (encode_utf8 (str_join LF lines)) = map encode_utf8 lines).
Proof.
  intros Hb Hr Hrecs Hne.
  assert (Hrecs_ne : recs <> []).
  { intros ->. apply Hne. apply records_of_length in Hrecs.
    destruct (flatten resp); [reflexivity|discriminate]. }
  exists (map (format_line (timestamp w)) recs).
  rewrite (invoke_written w ev ctx bucket resp recs Hb Hr Hrecs).
  rewrite (report_lines_nonempty _ _ Hrecs_ne).
  split; [reflexivity|]. split.
  - rewrite length_map. now apply records_of_length.
  - split.
    + intros i inst Hi.
      destruct (records_of_lookup _ _ _ _ Hrecs Hi) as ([iid nm] & Hrec & Hl).
      exists iid, nm. split; [assumption|].
      now rewrite lookup_map, Hl.
    + intros Hnf. rewrite <- (report_lines_nonempty _ _ Hrecs_ne).
      apply report_records with resp; auto. apply strftime_newline_free.
Qed.

Lemma report_has_one_line_per_instance_witness :
  flatten two_instances <> [] /\
  exists lines : list string,
    log (snd (invoke (world_of (Returned two_instances)) scheduled_event context_a)) =
      [DescribeInstances; UtcNow noon;
       PutObject "status-logs" "logs/ec2_status_2024-03-01T12-00-00Z.txt"
         (encode_utf8 (str_join LF lines))] /\
    length lines = 2 /\
    (forall i inst,
        flatten two_instances !! i = Some inst ->
        exists iid state_name,
          record_of inst = Some (iid, state_name) /\
          lines !! i =
            Some ("2024-03-01T12-00-00Z" ++ " - " ++ iid ++ " - " ++ state_name)) /\
    (response_newline_free two_instances = true ->
     bytes_split newline (encode_utf8 (str_join LF lines)) = map encode_utf8 lines).
Proof.
  split; [discriminate|].
  apply (report_has_one_line_per_instance
           (world_of (Returned two_instances)) scheduled_event context_a
           "status-logs" two_instances
           [("i-001", "running"); ("i-002", "stopped")]);
    [reflexivity | reflexivity | reflexivity | discriminate].
Defined.

(** C1 (as stated) fails when an instance id holds a line feed: one
    flattened instance, and a stored body of two newline-separated lines,
    the first of which is cut after the first half of the id. *)
Lemma line_feed_in_id_splits_the_line :
  environ (world_of (Returned id_with_line_feed)) !! "LOG_BUCKET" = Some "status-logs" /\
  length (flatten id_with_line_feed) = 1 /\
  exists body : list byte,
    log (snd (invoke (world_of (Returned id_with_line_feed)) scheduled_event context_a)) =
      [DescribeInstances; UtcNow noon;
       PutObject "status-logs" "logs/ec2_status_2024-03-01T12-00-00Z.txt" body] /\
    length (bytes_split newline body) = 2 /\
    bytes_split newline body !! 0 = Some (encode_utf8 "2024-03-01T12-00-00Z - i-001").
Proof.
  split; [reflexivity|]. split; [reflexivity|].
  eexists. split; [vm_compute; reflexivity|]. split; reflexivity.
Qed.

(** ** The empty inventory *)

(** C2.  When the flattened instance sequence is empty, the stored body is
    the single line [{timestamp} - no instances found] (one record, not
    empty), and the handler returns count 1 unless the write itself
    raises. *)
Theorem empty_inventory_writes_sentinel
    (w : world) (ev : json) (ctx : LambdaContext)
    (bucket : string) (resp : DescribeInstancesResult) :
  environ w !! "LOG_BUCKET" = Some bucket ->
  describe_instances w = Returned resp ->
  flatten resp = [] ->
  exists body : list byte,
    body = encode_utf8 (strftime TS_FORMAT (clock w 0) ++ " - no instances found") /\
    log (snd (invoke w ev ctx)) =
      [DescribeInstances; UtcNow (clock w 0);
       PutObject bucket (object_key (timestamp w)) body] /\
    bytes_split newline body = [body] /\
    body <> [] /\
    fst (invoke w ev ctx) =
      match put_object w bucket (object_key (timestamp w)) body with
      | Some e => Raised e
      | None => Returned {[ "count" := 1%Z ]}
      end.
Proof.
  intros Hb Hr Hflat.
  assert (Hrecs : records_of (flatten resp) = Some []) by now rewrite Hflat.
  eexists. split; [reflexivity|].
  rewrite (invoke_written w ev ctx bucket resp [] Hb Hr Hrecs).
  split; [reflexivity|]. split.
  - apply (bytes_split_one (sentinel (timestamp w))).
    apply sentinel_newline_free, strftime_newline_free.
  - split; [|reflexivity].
    change (strftime TS_FORMAT (clock w 0) ++ " - no instances found")
      with (sentinel (strftime TS_FORMAT (clock w 0))).
    unfold sentinel. rewrite encode_utf8_app. intros H.
    apply app_eq_nil in H as [_ H]. discriminate.
Qed.

Lemma empty_inventory_writes_sentinel_witness :
  flatten (answer []) = [] /\
  exists body : list byte,
    body = encode_utf8 ("2024-03-01T12-00-00Z" ++ " - no instances found") /\
    log (snd (invoke (world_of (Returned (answer []))) scheduled_event context_a)) =
      [DescribeInstances; UtcNow noon;
       PutObject "status-logs" "logs/ec2_status_2024-03-01T12-00-00Z.txt" body] /\
    bytes_split newline body = [body] /\
    body <> [] /\
    fst (invoke (world_of (Returned (answer []))) scheduled_event context_a) =
      Returned {[ "count" := 1%Z ]}.
Proof.
  split; [reflexivity|].
  apply (empty_inventory_writes_sentinel
           (world_of (Returned (answer []))) scheduled_event context_a
           "status-logs" (answer []));
    reflexivity.
Defined.

(** ** The missing configuration value *)

(** C3.  Without [LOG_BUCKET] in the environment the handler raises
    [KeyError] at once: the log of collaborator calls is empty, so neither
    the listing nor a write (to any bucket) was attempted. *)
Theorem missing_bucket_fails_before_any_call
    (w : world) (ev : json) (ctx : LambdaContext) :
  environ w !! "LOG_BUCKET" = None ->
  fst (invoke w ev ctx) = Raised (KeyError "LOG_BUCKET") /\
  log (snd (invoke w ev ctx)) = [] /\
  (forall bucket key body,
      ~ In (PutObject bucket key body) (log (snd (invoke w ev ctx)))) /\
  ~ In DescribeInstances (log (snd (invoke w ev ctx))).
Proof.
  intros H. rewrite (invoke_unconfigured w ev ctx H). cbn.
  repeat split; auto.
Qed.

Lemma missing_bucket_fails_before_any_call_witness :
  environ unconfigured_world !! "LOG_BUCKET" = None /\
  fst (invoke unconfigured_world scheduled_event context_a) =
    Raised (KeyError "LOG_BUCKET") /\
  log (snd (invoke unconfigured_world scheduled_event context_a)) = [].
Proof.
  split; [reflexivity|].
  destruct (missing_bucket_fails_before_any_call
              unconfigured_world scheduled_event context_a eq_refl)
    as (H1 & H2 & _).
  split; [exact H1 | exact H2].
Defined.

(** ** The storage key *)

Lemma no_colon (s : string) :
  str_all (fun c => negb (Ascii.eqb c ":")) s = true -> ~ In ":"%char (chars s).
Proof.
  unfold str_all. rewrite forallb_forall. intros H Hin.
  specialize (H _ Hin). discriminate.
Qed.

(** C4.  Whenever a write is issued, its key is
    [logs/ec2_status_{timestamp}.txt] for the timestamp formatted from the
    one instant the clock gave; the key holds no colon, whatever the clock
    says, and for every instant of a four-digit year (1000 to 9999, as any
    reading of the system clock is) the timestamp has the shape
    [YYYY-MM-DDTHH-MM-SSZ]. *)
Theorem key_is_a_function_of_the_timestamp
    (w : world) (ev : json) (ctx : LambdaContext)
    (bucket key : string) (body : list byte) :
  In (PutObject bucket key body) (log (snd (invoke w ev ctx))) ->
  log (snd (invoke w ev ctx)) =
    [DescribeInstances; UtcNow (clock w 0); PutObject bucket key body] /\
  key = "logs/ec2_status_" ++ strftime "%Y-%m-%dT%H-%M-%SZ" (clock w 0) ++ ".txt" /\
  key = object_key (timestamp w) /\
  ~ In ":"%char (chars key) /\
  (valid_datetime (clock w 0) = true ->
   (1000 <= year (clock w 0))%N ->
   compact_form (strftime "%Y-%m-%dT%H-%M-%SZ" (clock w 0)) = true).
Proof.
  intros Hin.
  assert (Hkey : log (snd (invoke w ev ctx)) =
                 [DescribeInstances; UtcNow (clock w 0); PutObject bucket key body]
                 /\ key = object_key (timestamp w)).
  { revert Hin. destruct (invoke_shape w ev ctx); cbn.
    - intros [].
    - intros [E|[]]; discriminate.
    - intros [E|[E|[]]]; discriminate.
    - intros [E|[E|[E|[]]]]; try discriminate.
      injection E as <- <- <-. auto. }
  destruct Hkey as [Hlog ->].
  split; [assumption|]. split; [reflexivity|]. split; [reflexivity|]. split.
  - apply no_colon, object_key_no_colon.
  - apply strftime_compact_form.
Qed.

Lemma key_is_a_function_of_the_timestamp_witness :
  valid_datetime noon = true /\
  log (snd (invoke (world_of (Returned two_instances)) scheduled_event context_a)) =
    [DescribeInstances; UtcNow noon;
     PutObject "status-logs" "logs/ec2_status_2024-03-01T12-00-00Z.txt"
       (encode_utf8 ("2024-03-01T12-00-00Z - i-001 - running" ++ LF ++
                     "2024-03-01T12-00-00Z - i-002 - stopped"))] /\
  ~ In ":"%char (chars "logs/ec2_status_2024-03-01T12-00-00Z.txt") /\
  compact_form "2024-03-01T12-00-00Z" = true.
Proof.
  split; [reflexivity|].
  destruct (key_is_a_function_of_the_timestamp
              (world_of (Returned two_instances)) scheduled_event context_a
              "status-logs" "logs/ec2_status_2024-03-01T12-00-00Z.txt"
              (encode_utf8 ("2024-03-01T12-00-00Z - i-001 - running" ++ LF ++
                            "2024-03-01T12-00-00Z - i-002 - stopped")))
    as (Hlog & _ & _ & Hcolon & Hform).
  - vm_compute. right. right. left. reflexivity.
  - split; [exact Hlog|]. split; [exact Hcolon|].
    apply Hform; [reflexivity|]. apply N.leb_le. reflexivity.
Defined.

(** ** Failure of the listing, and the order of the calls *)

(** C5.  When the listing raises, the handler raises the same exception,
    the log holds the listing call alone (no write) and nothing is
    returned.  Whenever the handler returns, the log is the listing, the
    clock reading, and then one write whose body is the whole formatted
    report of the response.  No invocation writes twice, and no write comes
    before the listing. *)
Theorem listing_failure_propagates_and_write_follows_listing
    (w : world) (ev : json) (ctx : LambdaContext) :
  (forall bucket e,
      environ w !! "LOG_BUCKET" = Some bucket ->
      describe_instances w = Raised e ->
      fst (invoke w ev ctx) = Raised e /\
      log (snd (invoke w ev ctx)) = [DescribeInstances] /\
      writes (log (snd (invoke w ev ctx))) = []) /\
  (forall v,
      fst (invoke w ev ctx) = Returned v ->
      exists bucket resp recs,
        describe_instances w = Returned resp /\
        records_of (flatten resp) = Some recs /\
        log (snd (invoke w ev ctx)) =
          [DescribeInstances; UtcNow (clock w 0);
           PutObject bucket (object_key (timestamp w))
             (encode_utf8 (str_join LF (report_lines (timestamp w) recs)))] /\
        length (writes (log (snd (invoke w ev ctx)))) = 1) /\
  length (writes (log (snd (invoke w ev ctx)))) <= 1 /\
  (forall before after bucket key body,
      log (snd (invoke w ev ctx)) = (before ++ PutObject bucket key body :: after)%list ->
      In DescribeInstances before).
Proof.
  split; [|split; [|split]].
  - intros bucket e Hb He.
    now rewrite (invoke_listing_raised w ev ctx bucket e Hb He).
  - intros v. destruct (invoke_shape w ev ctx) as [| | |bucket resp recs Hb Hr Hrecs];
      cbn; try discriminate.
    intros _. exists bucket, resp, recs. auto.
  - destruct (invoke_shape w ev ctx); cbn; lia.
  - intros before after bucket key body.
    destruct (invoke_shape w ev ctx); cbn; intros Hlog.
    + destruct before; discriminate.
    + destruct before as [|? [|? ?]]; discriminate.
    + destruct before as [|? [|? [|? ?]]]; discriminate.
    + destruct before as [|x before]; [discriminate|].
      injection Hlog as <- _. now left.
Qed.

Lemma listing_failure_propagates_and_write_follows_listing_witness :
  (fst (invoke (world_of (Raised access_denied)) scheduled_event context_a) =
     Raised access_denied /\
   log (snd (invoke (world_of (Raised access_denied)) scheduled_event context_a)) =
     [DescribeInstances] /\
   writes (log (snd (invoke (world_of (Raised access_denied)) scheduled_event context_a))) = []) /\
  (exists bucket resp recs,
      describe_instances (world_of (Returned two_instances)) = Returned resp /\
      records_of (flatten resp) = Some recs /\
      log (snd (invoke (world_of (Returned two_instances)) scheduled_event context_a)) =
        [DescribeInstances; UtcNow noon;
         PutObject bucket (object_key "2024-03-01T12-00-00Z")
           (encode_utf8 (str_join LF (report_lines "2024-03-01T12-00-00Z" recs)))] /\
      length (writes (log (snd (invoke (world_of (Returned two_instances))
                                  scheduled_event context_a)))) = 1).
Proof.
  split.
  - apply (proj1 (listing_failure_propagates_and_write_follows_listing
                    (world_of (Raised access_denied)) scheduled_event context_a)
             "status-logs" access_denied); reflexivity.
  - apply (proj1 (proj2 (listing_failure_propagates_and_write_follows_listing
                    (world_of (Returned two_instances)) scheduled_event context_a))
             {[ "count" := 2%Z ]}).
    reflexivity.
Defined.

(** ** The order of the lines *)

Lemma flatten_position (rs : list Reservation) :
  forall i j r inst,
    rs !! i = Some r ->
    instances_of r !! j = Some inst ->
    concat (map instances_of rs) !! position rs i j = Some inst.
Proof.
  unfold position.
  induction rs as [|x rs IH]; intros i j r inst Hi Hj; [discriminate|].
  destruct i as [|i]; cbn in Hi.
  - injection Hi as ->. cbn. now apply lookup_app_l_Some.
  - cbn [take map concat]. rewrite length_app, <- Nat.add_assoc.
    rewrite lookup_app_r by lia.
    replace (length (instances_of x) +
             (length (concat (map instances_of (take i rs))) + j) -
             length (instances_of x))
      with (length (concat (map instances_of (take i rs))) + j) by lia.
    now apply IH with r.
Qed.

Lemma position_monotone (rs : list Reservation) :
  forall i j i' j' r r',
    rs !! i = Some r -> j < length (instances_of r) ->
    rs !! i' = Some r' -> j' < length (instances_of r') ->
    i < i' \/ (i = i' /\ j < j') ->
    position rs i j < position rs i' j'.
Proof.
  unfold position.
  induction rs as [|x rs IH]; intros i j i' j' r r' Hi Hj Hi' Hj' Hlt;
    [discriminate|].
  destruct i as [|i], i' as [|i']; cbn in Hi, Hi'; cbn [take map concat].
  - cbn. lia.
  - injection Hi as ->. rewrite length_app. cbn. lia.
  - lia.
  - rewrite !length_app.
    assert (length (concat (map instances_of (take i rs))) + j <
            length (concat (map instances_of (take i' rs))) + j')
      by (apply IH with r r'; auto; lia).
    lia.
Qed.

(** C6.  The lines of the stored report follow the nested collection: the
    line of the j-th instance of the i-th reservation stands at the position
    that instance has when the reservations are laid end to end, and that
    position grows with the reservation and, within one reservation, with
    the instance. *)
Theorem flattening_preserves_order
    (w : world) (ev : json) (ctx : LambdaContext)
    (bucket : string) (resp : DescribeInstancesResult)
    (recs : list (string * string)) :
  environ w !! "LOG_BUCKET" = Some bucket ->
  describe_instances w = Returned resp ->
  records_of (flatten resp) = Some recs ->
  exists lines : list string,
    log (snd (invoke w ev ctx)) =
      [DescribeInstances; UtcNow (clock w 0);
       PutObject bucket (object_key (timestamp w))
         (encode_utf8 (str_join LF lines))] /\
    (forall i j r inst,
        reservations_of resp !! i = Some r ->
        instances_of r !! j = Some inst ->
        exists iid state_name,
          record_of inst = Some (iid, state_name) /\
          lines !! position (reservations_of resp) i j =
            Some (timestamp w ++ " - " ++ iid ++ " - " ++ state_name)) /\
    (forall i j i' j' r r',
        reservations_of resp !! i = Some r -> j < length (instances_of r) ->
        reservations_of resp !! i' = Some r' -> j' < length (instances_of r') ->
        i < i' \/ (i = i' /\ j < j') ->
        position (reservations_of resp) i j < position (reservations_of resp) i' j').
Proof.
  intros Hb Hr Hrecs.
  exists (report_lines (timestamp w) recs).
  rewrite (invoke_written w ev ctx bucket resp recs Hb Hr Hrecs).
  split; [reflexivity|]. split.
  - intros i j r inst Hi Hj.
    pose proof (flatten_position _ _ _ _ _ Hi Hj) as Hpos.
    fold (flatten resp) in Hpos.
    destruct (records_of_lookup _ _ _ _ Hrecs Hpos) as ([iid nm] & Hrec & Hl).
    exists iid, nm. split; [assumption|].
    rewrite report_lines_nonempty by (intros ->; discriminate).
    now rewrite lookup_map, Hl.
  - apply position_monotone.
Qed.

Lemma flattening_preserves_order_witness :
  exists lines : list string,
    log (snd (invoke (world_of (Returned three_instances)) scheduled_event context_a)) =
      [DescribeInstances; UtcNow noon;
       PutObject "status-logs" "logs/ec2_status_2024-03-01T12-00-00Z.txt"
         (encode_utf8 (str_join LF lines))] /\
    lines !! position (reservations_of three_instances) 1 1 =
      Some "2024-03-01T12-00-00Z - i-003 - pending" /\
    position (reservations_of three_instances) 0 0 <
    position (reservations_of three_instances) 1 0.
Proof.
  destruct (flattening_preserves_order
              (world_of (Returned three_instances)) scheduled_event context_a
              "status-logs" three_instances
              [("i-001", "running"); ("i-002", "stopped"); ("i-003", "pending")]
              eq_refl eq_refl eq_refl)
    as (lines & Hlog & Hline & Hmono).
  exists lines. split; [exact Hlog|]. split.
  - destruct (Hline 1 1 (reservation [descriptor "i-002" 80 "stopped";
                                      descriptor "i-003" 0 "pending"])
                (descriptor "i-003" 0 "pending") eq_refl eq_refl)
      as (iid & nm & Hrec & Hl).
    injection Hrec as <- <-. exact Hl.
  - apply (Hmono 0 0 1 0 (reservation [descriptor "i-001" 16 "running"])
             (reservation [descriptor "i-002" 80 "stopped";
                           descriptor "i-003" 0 "pending"]));
      [reflexivity | cbn; lia | reflexivity | cbn; lia | left; lia].
Defined.

(** ** Determinism *)

Lemma strftime_same_second (a b : datetime) :
  same_second a b -> strftime TS_FORMAT a = strftime TS_FORMAT b.
Proof.
  intros (Hy & Hm & Hd & Hh & Hmi & Hs).
  rewrite !strftime_unfold. now rewrite Hy, Hm, Hd, Hh, Hmi, Hs.
Qed.

(** C7.  Two invocations that receive the same inventory answer and read
    the clock within the same second write the same keys with the same
    bodies, byte for byte, whatever else differs between them; each body is
    the UTF-8 encoding of the report lines of the answer (one formatted line
    per instance, or the sentinel line) joined by single line feeds, and
    decodes back to that text. *)
Theorem same_inventory_same_second_same_object
    (w1 w2 : world) (ev1 ev2 : json) (ctx1 ctx2 : LambdaContext)
    (bucket1 bucket2 : string) :
  environ w1 !! "LOG_BUCKET" = Some bucket1 ->
  environ w2 !! "LOG_BUCKET" = Some bucket2 ->
  describe_instances w1 = describe_instances w2 ->
  same_second (clock w1 0) (clock w2 0) ->
  writes (log (snd (invoke w1 ev1 ctx1))) = writes (log (snd (invoke w2 ev2 ctx2))) /\
  (forall key body,
      In (key, body) (writes (log (snd (invoke w1 ev1 ctx1)))) ->
      key = object_key (timestamp w1) /\
      exists resp recs,
        describe_instances w1 = Returned resp /\
        records_of (flatten resp) = Some recs /\
        body = encode_utf8 (str_join LF (report_lines (timestamp w1) recs)) /\
        string_of_list_byte body = str_join LF (report_lines (timestamp w1) recs)).
Proof.
  intros Hb1 Hb2 Hsame Hsec.
  assert (Hts : timestamp w2 = timestamp w1)
    by (symmetry; now apply strftime_same_second).
  destruct (describe_instances w1) as [resp|e] eqn:Hr1.
  - destruct (records_of (flatten resp)) as [recs|] eqn:Hrecs.
    + rewrite (invoke_written w1 ev1 ctx1 bucket1 resp recs Hb1 Hr1 Hrecs).
      rewrite (invoke_written w2 ev2 ctx2 bucket2 resp recs Hb2 (eq_sym Hsame) Hrecs).
      unfold after_write. cbn [snd log writes]. rewrite !Hts.
      split; [reflexivity|].
      intros key body [E|[]]. injection E as <- <-.
      split; [reflexivity|]. exists resp, recs.
      repeat split; [assumption|]. apply string_of_list_byte_of_string.
    + destruct (invoke_descriptor_incomplete w1 ev1 ctx1 bucket1 resp Hb1 Hr1 Hrecs)
        as (k1 & _ & ->).
      destruct (invoke_descriptor_incomplete w2 ev2 ctx2 bucket2 resp Hb2
                  (eq_sym Hsame) Hrecs) as (k2 & _ & ->).
      cbn. split; [reflexivity|]. intros key body [].
  - rewrite (invoke_listing_raised w1 ev1 ctx1 bucket1 e Hb1 Hr1).
    rewrite (invoke_listing_raised w2 ev2 ctx2 bucket2 e Hb2 (eq_sym Hsame)).
    cbn. split; [reflexivity|]. intros key body [].
Qed.

Lemma same_inventory_same_second_same_object_witness :
  same_second noon noon_later /\
  writes (log (snd (invoke (world_of (Returned two_instances))
                      scheduled_event context_a))) =
  writes (log (snd (invoke (other_world (Returned two_instances))
                      console_test_event context_b))) /\
  writes (log (snd (invoke (world_of (Returned two_instances))
                      scheduled_event context_a))) =
    [("logs/ec2_status_2024-03-01T12-00-00Z.txt",
      encode_utf8 ("2024-03-01T12-00-00Z - i-001 - running" ++ LF ++
                   "2024-03-01T12-00-00Z - i-002 - stopped"))] /\
  (forall key body,
      In (key, body)
        (writes (log (snd (invoke (world_of (Returned two_instances))
                             scheduled_event context_a)))) ->
      key = object_key "2024-03-01T12-00-00Z" /\
      exists resp recs,
        Returned two_instances = Returned resp /\
        records_of (flatten resp) = Some recs /\
        body = encode_utf8 (str_join LF (report_lines "2024-03-01T12-00-00Z" recs)) /\
        string_of_list_byte body =
          str_join LF (report_lines "2024-03-01T12-00-00Z" recs)).
Proof.
  split; [repeat split|].
  destruct (same_inventory_same_second_same_object
              (world_of (Returned two_instances)) (other_world (Returned two_instances))
              scheduled_event console_test_event context_a context_b
              "status-logs" "status-logs-replica"
              eq_refl eq_refl eq_refl
              (conj eq_refl (conj eq_refl (conj eq_refl
                 (conj eq_refl (conj eq_refl eq_refl))))))
    as [Hsame Hbody].
  split; [exact Hsame|]. split; [reflexivity|]. exact Hbody.
Defined.

(** ** The returned count *)

(** C8 (as amended).  Whenever the handler returns, it returns
    [{"count": N}] where N is the number of lines that were joined into the
    stored body, the sentinel line included when there is no instance; N is
    at least 1.  When no instance id or state name holds a line feed, N is
    also the number of newline-separated records of the stored object. *)
Theorem count_is_the_number_of_lines_written
    (w : world) (ev : json) (ctx : LambdaContext) (v : gmap string Z) :
  fst (invoke w ev ctx) = Returned v ->
  exists bucket resp recs lines,
    describe_instances w = Returned resp /\
    records_of (flatten resp) = Some recs /\
    lines = report_lines (timestamp w) recs /\
    log (snd (invoke w ev ctx)) =
      [DescribeInstances; UtcNow (clock w 0);
       PutObject bucket (object_key (timestamp w))
         (encode_utf8 (str_join LF lines))] /\
    v = {[ "count" := Z.of_nat (length lines) ]} /\
    1 <= length lines /\
    (flatten resp = [] -> lines = [timestamp w ++ " - no instances found"]) /\
    (response_newline_free resp = true ->
     length (bytes_split newline (encode_utf8 (str_join LF lines))) = length lines).
Proof.
  destruct (invoke_shape w ev ctx) as [| | |bucket resp recs Hb Hr Hrecs];
    cbn [fst snd]; try discriminate.
  intros Hv. exists bucket, resp, recs, (report_lines (timestamp w) recs).
  destruct (put_object w bucket _ _); [discriminate|].
  injection Hv as <-.
  repeat split; auto.
  - apply report_lines_length.
  - intros Hflat. apply records_of_length in Hrecs. rewrite Hflat in Hrecs.
    destruct recs; [reflexivity|discriminate].
  - intros Hnf.
    rewrite (report_records (timestamp w) resp recs
               (strftime_newline_free (clock w 0)) Hrecs Hnf).
    apply length_map.
Qed.

Lemma count_is_the_number_of_lines_written_witness :
  exists bucket resp recs lines,
    describe_instances (world_of (Returned two_instances)) = Returned resp /\
    records_of (flatten resp) = Some recs /\
    lines = report_lines "2024-03-01T12-00-00Z" recs /\
    log (snd (invoke (world_of (Returned two_instances)) scheduled_event context_a)) =
      [DescribeInstances; UtcNow noon;
       PutObject bucket (object_key "2024-03-01T12-00-00Z")
         (encode_utf8 (str_join LF lines))] /\
    ({[ "count" := 2%Z ]} : gmap string Z) = {[ "count" := Z.of_nat (length lines) ]} /\
    1 <= length lines /\
    (flatten resp = [] -> lines = ["2024-03-01T12-00-00Z" ++ " - no instances found"]) /\
    (response_newline_free resp = true ->
     length (bytes_split newline (encode_utf8 (str_join LF lines))) = length lines).
Proof.
  apply (count_is_the_number_of_lines_written
           (world_of (Returned two_instances)) scheduled_event context_a
           {[ "count" := 2%Z ]}).
  reflexivity.
Defined.

(** C8 (as stated) fails when a state name holds a line feed: the handler
    returns count 1 and the stored object has two newline-separated
    records. *)
Lemma line_feed_in_state_adds_a_record :
  exists body : list byte,
    invoke (world_of (Returned state_with_line_feed)) scheduled_event context_a =
      (Returned {[ "count" := 1%Z ]},
       {| log := [DescribeInstances; UtcNow noon;
                  PutObject "status-logs" "logs/ec2_status_2024-03-01T12-00-00Z.txt" body];
          clock_reads := 1 |}) /\
    length (bytes_split newline body) = 2.
Proof.
  eexists. split; [vm_compute; reflexivity|]. reflexivity.
Qed.

(** ** The trigger *)

(** C9.  The event and the context play no part: with the same world, any
    two triggers give the same outcome and the same log, hence the same
    key, body and count. *)
Theorem trigger_contents_are_ignored
    (w : world) (ev1 ev2 : json) (ctx1 ctx2 : LambdaContext) :
  invoke w ev1 ctx1 = invoke w ev2 ctx2 /\
  fst (invoke w ev1 ctx1) = fst (invoke w ev2 ctx2) /\
  writes (log (snd (invoke w ev1 ctx1))) = writes (log (snd (invoke w ev2 ctx2))).
Proof. repeat split. Qed.

(** ** Absent keys in the response *)

Lemma flatten_fill_defaults (resp : DescribeInstancesResult) :
  flatten (fill_defaults resp) = flatten resp.
Proof.
  unfold flatten, fill_defaults, reservations_of at 1. cbn.
  f_equal. rewrite map_map. now apply map_ext.
Qed.

Lemma flatten_without_instances (rs : list Reservation) :
  Forall (fun r => Instances r = None) rs ->
  concat (map instances_of rs) = [].
Proof.
  induction 1 as [|r rs Hr _ IH]; [reflexivity|].
  cbn. unfold instances_of at 1. now rewrite Hr.
Qed.

(** C10.  Once the listing has answered, absent [Reservations] and
    [Instances] keys are read as empty lists: the invocation runs as on the
    response with those keys filled with [[]], and writes the sentinel line
    when nothing remains.  The handler raises before the write exactly when
    some descriptor lacks [InstanceId], [State] or the [Name] of its state,
    with a [KeyError] on one of these keys and no write; otherwise the write
    is issued and the outcome is that of the write. *)
Theorem absent_keys_are_empty_sequences
    (w : world) (ev : json) (ctx : LambdaContext)
    (bucket : string) (resp : DescribeInstancesResult) :
  environ w !! "LOG_BUCKET" = Some bucket ->
  describe_instances w = Returned resp ->
  invoke w ev ctx = invoke (with_response w (fill_defaults resp)) ev ctx /\
  (Reservations resp = None \/
   Forall (fun r => Instances r = None) (reservations_of resp) ->
   log (snd (invoke w ev ctx)) =
     [DescribeInstances; UtcNow (clock w 0);
      PutObject bucket (object_key (timestamp w))
        (encode_utf8 (timestamp w ++ " - no instances found"))]) /\
  ((exists inst, In inst (flatten resp) /\ lacks_field inst) ->
   exists k,
     In k ["InstanceId"; "State"; "Name"] /\
     fst (invoke w ev ctx) = Raised (KeyError k) /\
     writes (log (snd (invoke w ev ctx))) = []) /\
  (~ (exists inst, In inst (flatten resp) /\ lacks_field inst) ->
   exists body,
     log (snd (invoke w ev ctx)) =
       [DescribeInstances; UtcNow (clock w 0);
        PutObject bucket (object_key (timestamp w)) body] /\
     match fst (invoke w ev ctx) with
     | Returned _ => put_object w bucket (object_key (timestamp w)) body = None
     | Raised e => put_object w bucket (object_key (timestamp w)) body = Some e
     end).
Proof.
  intros Hb Hr. split; [|split; [|split]].
  - rewrite (invoke_listed w ev ctx bucket resp Hb Hr).
    rewrite (invoke_listed (with_response w (fill_defaults resp)) ev ctx bucket
               (fill_defaults resp) Hb eq_refl).
    now rewrite flatten_fill_defaults.
  - intros Hempty.
    assert (Hflat : flatten resp = []).
    { unfold flatten. destruct Hempty as [Hnone|Hall].
      - unfold reservations_of. now rewrite Hnone.
      - now apply flatten_without_instances. }
    assert (Hrecs : records_of (flatten resp) = Some []) by now rewrite Hflat.
    now rewrite (invoke_written w ev ctx bucket resp [] Hb Hr Hrecs).
  - intros Hlacks. apply records_of_None in Hlacks.
    destruct (invoke_descriptor_incomplete w ev ctx bucket resp Hb Hr Hlacks)
      as (k & Hk & ->).
    exists k. auto.
  - intros Hcomplete.
    destruct (records_of (flatten resp)) as [recs|] eqn:Hrecs;
      [|exfalso; now apply Hcomplete, records_of_None].
    rewrite (invoke_written w ev ctx bucket resp recs Hb Hr Hrecs).
    eexists. split; [reflexivity|]. cbn [fst].
    destruct (put_object w bucket _ _); reflexivity.
Qed.

Lemma absent_keys_are_empty_sequences_witness :
  invoke (world_of (Returned no_reservations_key)) scheduled_event context_a =
  invoke (world_of (Returned (answer []))) scheduled_event context_a /\
  log (snd (invoke (world_of (Returned no_reservations_key)) scheduled_event context_a)) =
    [DescribeInstances; UtcNow noon;
     PutObject "status-logs" "logs/ec2_status_2024-03-01T12-00-00Z.txt"
       (encode_utf8 "2024-03-01T12-00-00Z - no instances found")] /\
  exists k,
    In k ["InstanceId"; "State"; "Name"] /\
    fst (invoke (world_of (Returned no_state_key)) scheduled_event context_a) =
      Raised (KeyError k) /\
    writes (log (snd (invoke (world_of (Returned no_state_key))
                        scheduled_event context_a))) = [].
Proof.
  destruct (absent_keys_are_empty_sequences
              (world_of (Returned no_reservations_key)) scheduled_event context_a
              "status-logs" no_reservations_key eq_refl eq_refl)
    as (Hfill & Hsentinel & _ & _).
  destruct (absent_keys_are_empty_sequences
              (world_of (Returned no_state_key)) scheduled_event context_a
              "status-logs" no_state_key eq_refl eq_refl)
    as (_ & _ & Hraise & _).
  split; [exact Hfill|]. split.
  - apply Hsentinel. left. reflexivity.
  - apply Hraise. exists {| InstanceId := Some "i-002"; State := None |}.
    split; [cbn; auto | right; left; reflexivity].
Defined.

(** ** The examples of the specification *)

Example year_below_1000_is_not_padded :
  strftime TS_FORMAT
    {| year := 999; month := 1; day := 2;
       hour := 3; minute := 4; second := 5; microsecond := 0 |} =
  "999-01-02T03-04-05Z".
Proof. reflexivity. Qed.

Example two_instances_report :
  invoke (world_of (Returned two_instances)) scheduled_event context_a =
  (Returned {[ "count" := 2%Z ]},
   {| log := [DescribeInstances; UtcNow noon;
              PutObject "status-logs" "logs/ec2_status_2024-03-01T12-00-00Z.txt"
                (encode_utf8 ("2024-03-01T12-00-00Z - i-001 - running" ++ LF ++
                              "2024-03-01T12-00-00Z - i-002 - stopped"))];
      clock_reads := 1 |}).
Proof. reflexivity. Qed.

Example no_reservation_report :
  invoke (world_of (Returned (answer []))) scheduled_event context_a =
  (Returned {[ "count" := 1%Z ]},
   {| log := [DescribeInstances; UtcNow noon;
              PutObject "status-logs" "logs/ec2_status_2024-03-01T12-00-00Z.txt"
                (encode_utf8 "2024-03-01T12-00-00Z - no instances found")];
      clock_reads := 1 |}).
Proof. reflexivity. Qed.

Example permission_error_report :
  invoke (world_of (Raised access_denied)) scheduled_event context_a =
  (Raised access_denied, {| log := [DescribeInstances]; clock_reads := 0 |}).
Proof. reflexivity. Qed.

Example absent_state_raises :
  invoke (world_of (Returned no_state_key)) scheduled_event context_a =
  (Raised (KeyError "State"),
   {| log := [DescribeInstances; UtcNow noon]; clock_reads := 1 |}).
Proof. reflexivity. Qed.

Example absent_instances_key_report :
  writes (log (snd (invoke (world_of (Returned no_instances_key))
                      scheduled_event context_a))) =
  [("logs/ec2_status_2024-03-01T12-00-00Z.txt",
    encode_utf8 "2024-03-01T12-00-00Z - no instances found")].
Proof. reflexivity. Qed.

(** * Further properties of the handler *)

(** ** Failure of the write *)

(** X1.  When the storage write raises, the handler raises the same
    exception and returns nothing; the write was attempted once, after the
    listing and the clock reading, with the whole report as body. *)
Theorem storage_failure_propagates
    (w : world) (ev : json) (ctx : LambdaContext)
    (bucket : string) (resp : DescribeInstancesResult)
    (recs : list (string * string)) (e : exception) :
  environ w !! "LOG_BUCKET" = Some bucket ->
  describe_instances w = Returned resp ->
  records_of (flatten resp) = Some recs ->
  put_object w bucket (object_key (timestamp w))
    (encode_utf8 (str_join LF (report_lines (timestamp w) recs))) = Some e ->
  fst (invoke w ev ctx) = Raised e /\
  log (snd (invoke w ev ctx)) =
    [DescribeInstances; UtcNow (clock w 0);
     PutObject bucket (object_key (timestamp w))
       (encode_utf8 (str_join LF (report_lines (timestamp w) recs)))].
Proof.
  intros Hb Hr Hrecs Hput.
  rewrite (invoke_written w ev ctx bucket resp recs Hb Hr Hrecs).
  cbn [fst snd]. now rewrite Hput.
Qed.

Lemma storage_failure_propagates_witness :
  fst (invoke (other_world (Returned two_instances)) scheduled_event context_a) =
    Raised (ClientError "PutObject" "SlowDown") /\
  log (snd (invoke (other_world (Returned two_instances)) scheduled_event context_a)) =
    [DescribeInstances; UtcNow noon_later;
     PutObject "status-logs-replica" "logs/ec2_status_2024-03-01T12-00-00Z.txt"
       (encode_utf8 ("2024-03-01T12-00-00Z - i-001 - running" ++ LF ++
                     "2024-03-01T12-00-00Z - i-002 - stopped"))].
Proof.
  apply (storage_failure_propagates
           (other_world (Returned two_instances)) scheduled_event context_a
           "status-logs-replica" two_instances
           [("i-001", "running"); ("i-002", "stopped")]
           (ClientError "PutObject" "SlowDown"));
    reflexivity.
Defined.

(** ** When the handler returns, and what it raises *)

(** X2.  The handler returns exactly when the bucket is configured, the
    listing answers, every descriptor carries its fields and the write does
    not raise; the value is then the count of the lines of the report. *)
Theorem handler_returns_iff
    (w : world) (ev : json) (ctx : LambdaContext) (v : gmap string Z) :
  fst (invoke w ev ctx) = Returned v <->
  exists bucket resp recs,
    environ w !! "LOG_BUCKET" = Some bucket /\
    describe_instances w = Returned resp /\
    records_of (flatten resp) = Some recs /\
    put_object w bucket (object_key (timestamp w))
      (encode_utf8 (str_join LF (report_lines (timestamp w) recs))) = None /\
    v = {[ "count" := Z.of_nat (length (report_lines (timestamp w) recs)) ]}.
Proof.
  split.
  - destruct (invoke_shape w ev ctx) as [| | |bucket resp recs Hb Hr Hrecs];
      cbn [fst]; try discriminate.
    destruct (put_object w bucket _ _) eqn:Hput; [discriminate|].
    intros E. injection E as <-. exists bucket, resp, recs. auto.
  - intros (bucket & resp & recs & Hb & Hr & Hrecs & Hput & ->).
    rewrite (invoke_written w ev ctx bucket resp recs Hb Hr Hrecs).
    cbn [fst]. now rewrite Hput.
Qed.

(** X3.  An exception that leaves the handler is one of four, unwrapped:
    the [KeyError] of the absent [LOG_BUCKET] (nothing was called), the
    exception of the listing (only the listing was called), the [KeyError]
    of a key absent from a descriptor (listing and clock, no write), or the
    exception of the write. *)
Theorem raised_exception_origin
    (w : world) (ev : json) (ctx : LambdaContext) (e : exception) :
  fst (invoke w ev ctx) = Raised e ->
  (e = KeyError "LOG_BUCKET" /\ environ w !! "LOG_BUCKET" = None /\
   log (snd (invoke w ev ctx)) = []) \/
  (describe_instances w = Raised e /\
   log (snd (invoke w ev ctx)) = [DescribeInstances]) \/
  (exists resp k,
      describe_instances w = Returned resp /\
      records_of (flatten resp) = None /\
      e = KeyError k /\ In k ["InstanceId"; "State"; "Name"] /\
      log (snd (invoke w ev ctx)) = [DescribeInstances; UtcNow (clock w 0)]) \/
  (exists bucket key body,
      put_object w bucket key body = Some e /\
      log (snd (invoke w ev ctx)) =
        [DescribeInstances; UtcNow (clock w 0); PutObject bucket key body]).
Proof.
  destruct (invoke_shape w ev ctx) as [Hb|bucket e' Hb Hr|bucket resp k Hb Hr Hrecs Hk
                                       |bucket resp recs Hb Hr Hrecs];
    cbn [fst snd]; intros E.
  - injection E as <-. left. auto.
  - injection E as <-. right. left. auto.
  - injection E as <-. right. right. left. exists resp, k. auto.
  - right. right. right.
    exists bucket, (object_key (timestamp w)),
      (encode_utf8 (str_join LF (report_lines (timestamp w) recs))).
    destruct (put_object w bucket _ _) as [e'|]; [|discriminate].
    injection E as <-. auto.
Qed.

Lemma raised_exception_origin_witness :
  describe_instances (world_of (Raised access_denied)) = Raised access_denied /\
  log (snd (invoke (world_of (Raised access_denied)) scheduled_event context_a)) =
    [DescribeInstances].
Proof.
  destruct (raised_exception_origin
              (world_of (Raised access_denied)) scheduled_event context_a
              access_denied eq_refl)
    as [(E & _)|[H|[(resp & k & E & _)|(bucket & key & body & E & _)]]];
    [discriminate E | exact H | discriminate E | discriminate E].
Defined.

(** ** The bucket, the clock and the listing *)

(** X4.  A write is issued exactly when the bucket is configured, the
    listing answers and every descriptor carries its fields; it goes to the
    bucket named by [LOG_BUCKET], whatever that value is, and to no
    other. *)
Theorem write_goes_to_the_configured_bucket
    (w : world) (ev : json) (ctx : LambdaContext) (bucket : string) :
  (exists key body, In (PutObject bucket key body) (log (snd (invoke w ev ctx)))) <->
  environ w !! "LOG_BUCKET" = Some bucket /\
  exists resp recs,
    describe_instances w = Returned resp /\
    records_of (flatten resp) = Some recs.
Proof.
  split.
  - intros (key & body & Hin). revert Hin.
    destruct (invoke_shape w ev ctx) as [| | |bucket' resp recs Hb Hr Hrecs];
      cbn [snd log initial after_listing after_clock after_write].
    + intros [].
    + intros [E|[]]; discriminate.
    + intros [E|[E|[]]]; discriminate.
    + intros [E|[E|[E|[]]]]; try discriminate.
      injection E as -> _ _. split; [assumption|]. now exists resp, recs.
  - intros (Hb & resp & recs & Hr & Hrecs).
    rewrite (invoke_written w ev ctx bucket resp recs Hb Hr Hrecs).
    do 2 eexists. cbn. right. right. left. reflexivity.
Qed.

(** X5.  The clock is read at most once, and exactly when the listing has
    answered: the one reading comes after the listing call and before any
    write, and it is the instant the timestamp is formatted from.  Without
    a bucket or with a failed listing the clock is not read. *)
Theorem clock_is_read_once_after_the_listing
    (w : world) (ev : json) (ctx : LambdaContext) :
  clock_reads (snd (invoke w ev ctx)) <= 1 /\
  (clock_reads (snd (invoke w ev ctx)) = 1 <->
   exists bucket resp,
     environ w !! "LOG_BUCKET" = Some bucket /\
     describe_instances w = Returned resp) /\
  (forall t,
      In (UtcNow t) (log (snd (invoke w ev ctx))) ->
      t = clock w 0 /\
      exists rest,
        log (snd (invoke w ev ctx)) = DescribeInstances :: UtcNow t :: rest /\
        forall t', ~ In (UtcNow t') rest).
Proof.
  destruct (invoke_shape w ev ctx) as [Hb|bucket e Hb Hr|bucket resp k Hb Hr Hrecs Hk
                                       |bucket resp recs Hb Hr Hrecs];
    cbn [snd log clock_reads initial after_listing after_clock after_write].
  - split; [lia|]. split.
    + split; [discriminate|]. intros (b & r & Hb' & _). congruence.
    + intros t [].
  - split; [lia|]. split.
    + split; [discriminate|]. intros (b & r & _ & Hr'). congruence.
    + intros t [E|[]]. discriminate.
  - split; [lia|]. split.
    + split; [|reflexivity]. intros _. now exists bucket, resp.
    + intros t [E|[E|[]]]; [discriminate|]. injection E as <-.
      split; [reflexivity|]. exists []. split; [reflexivity|]. intros t' [].
  - split; [lia|]. split.
    + split; [|reflexivity]. intros _. now exists bucket, resp.
    + intros t [E|[E|[E|[]]]]; try discriminate. injection E as <-.
      split; [reflexivity|]. eexists. split; [reflexivity|].
      intros t' [E|[]]. discriminate.
Qed.

Lemma clock_is_read_once_after_the_listing_witness :
  clock_reads (snd (invoke (world_of (Returned two_instances))
                      scheduled_event context_a)) = 1 /\
  clock_reads (snd (invoke (world_of (Raised access_denied))
                      scheduled_event context_a)) <= 1.
Proof.
  split.
  - apply (proj1 (proj2 (clock_is_read_once_after_the_listing
                           (world_of (Returned two_instances))
                           scheduled_event context_a))).
    exists "status-logs", two_instances. split; reflexivity.
  - apply (proj1 (clock_is_read_once_after_the_listing
                    (world_of (Raised access_denied)) scheduled_event context_a)).
Defined.

(** X6.  The listing is called at most once per invocation, first of all
    calls, and exactly when the bucket is configured: there is no second
    call, whether the first one raised or answered with a [NextToken]. *)
Theorem listing_is_called_once
    (w : world) (ev : json) (ctx : LambdaContext) :
  (environ w !! "LOG_BUCKET" = None /\ log (snd (invoke w ev ctx)) = []) \/
  (exists bucket rest,
      environ w !! "LOG_BUCKET" = Some bucket /\
      log (snd (invoke w ev ctx)) = DescribeInstances :: rest /\
      ~ In DescribeInstances rest).
Proof.
  destruct (invoke_shape w ev ctx) as [Hb|bucket e Hb Hr|bucket resp k Hb Hr Hrecs Hk
                                       |bucket resp recs Hb Hr Hrecs];
    cbn [snd log initial after_listing after_clock after_write].
  - left. auto.
  - right. exists bucket, []. repeat split; auto.
  - right. exists bucket. eexists. repeat split; [assumption|].
    intros [E|[]]. discriminate.
  - right. exists bucket. eexists. repeat split; [assumption|].
    intros [E|[E|[]]]; discriminate.
Qed.

(** ** What the report depends on *)

(** X7.  The handler sees the response only through its flattened
    instance sequence: two responses with the same flattened sequence give
    the same outcome and the same calls, however the instances are grouped
    into reservations and whatever the other keys of the response hold. *)
Theorem report_depends_on_the_flattened_sequence
    (w : world) (ev : json) (ctx : LambdaContext)
    (resp1 resp2 : DescribeInstancesResult) :
  flatten resp1 = flatten resp2 ->
  invoke (with_response w resp1) ev ctx = invoke (with_response w resp2) ev ctx.
Proof.
  intros Hflat.
  destruct (environ w !! "LOG_BUCKET") as [bucket|] eqn:Hb.
  - rewrite (invoke_listed (with_response w resp1) ev ctx bucket resp1 Hb eq_refl).
    rewrite (invoke_listed (with_response w resp2) ev ctx bucket resp2 Hb eq_refl).
    now rewrite Hflat.
  - rewrite (invoke_unconfigured (with_response w resp1) ev ctx Hb).
    now rewrite (invoke_unconfigured (with_response w resp2) ev ctx Hb).
Qed.

Lemma report_depends_on_the_flattened_sequence_witness :
  flatten two_instances = flatten two_reservations /\
  invoke (with_response (world_of (Raised access_denied)) two_instances)
    scheduled_event context_a =
  invoke (with_response (world_of (Raised access_denied)) two_reservations)
    scheduled_event context_a.
Proof.
  split; [reflexivity|].
  apply (report_depends_on_the_flattened_sequence
           (world_of (Raised access_denied)) scheduled_event context_a
           two_instances two_reservations).
  reflexivity.
Defined.

(** X8.  The returned count is the number of instance descriptors of the
    response, or 1 when there is none: [max 1 (number of instances)]. *)
Theorem returned_count_is_max_one_instances
    (w : world) (ev : json) (ctx : LambdaContext) (v : gmap string Z) :
  fst (invoke w ev ctx) = Returned v ->
  exists resp,
    describe_instances w = Returned resp /\
    v = {[ "count" := Z.max 1 (Z.of_nat (length (flatten resp))) ]}.
Proof.
  destruct (invoke_shape w ev ctx) as [| | |bucket resp recs Hb Hr Hrecs];
    cbn [fst]; try discriminate.
  destruct (put_object w bucket _ _); [discriminate|].
  intros E. injection E as <-. exists resp. split; [assumption|].
  apply records_of_length in Hrecs. rewrite <- Hrecs.
  f_equal. destruct recs as [|r recs]; [reflexivity|].
  unfold report_lines. rewrite length_map. cbn [length]. lia.
Qed.

Lemma returned_count_is_max_one_instances_witness :
  exists resp,
    describe_instances (world_of (Returned three_instances)) = Returned resp /\
    ({[ "count" := 3%Z ]} : gmap string Z) =
    {[ "count" := Z.max 1 (Z.of_nat (length (flatten resp))) ]}.
Proof.
  apply (returned_count_is_max_one_instances
           (world_of (Returned three_instances)) scheduled_event context_a
           {[ "count" := 3%Z ]}).
  reflexivity.
Defined.

(** ** The key of the [KeyError] *)

Lemma for_instances_missing_key (ts : string) (inst : Instance)
    (rest : list Instance) (k : string) :
  forall acc s,
    missing_key inst = Some k ->
    for_instances ts (inst :: rest) acc s = (Raised (KeyError k), s).
Proof.
  intros acc s Hk. unfold missing_key in Hk.
  cbn [for_instances]. unfold bind at 1.
  destruct (InstanceId inst) as [iid|]; [|now injection Hk as <-].
  cbn. unfold bind at 1.
  destruct (State inst) as [st|]; [|now injection Hk as <-].
  cbn. unfold bind at 1.
  destruct (Name st) as [nm|]; [discriminate|now injection Hk as <-].
Qed.

(** X9.  The [KeyError] raised for a malformed response names the first
    absent key in visiting order: of the first descriptor that lacks a key,
    [InstanceId] before [State] before [Name].  The descriptors after it are
    not examined, the clock has been read and nothing is written. *)
Theorem key_error_names_the_first_absent_key
    (w : world) (ev : json) (ctx : LambdaContext)
    (bucket : string) (resp : DescribeInstancesResult)
    (before after : list Instance) (inst : Instance)
    (recs : list (string * string)) (k : string) :
  environ w !! "LOG_BUCKET" = Some bucket ->
  describe_instances w = Returned resp ->
  flatten resp = (before ++ inst :: after)%list ->
  records_of before = Some recs ->
  missing_key inst = Some k ->
  invoke w ev ctx =
  (Raised (KeyError k),
   {| log := [DescribeInstances; UtcNow (clock w 0)]; clock_reads := 1 |}).
Proof.
  intros Hb Hr Hflat Hbefore Hk.
  rewrite (invoke_listed w ev ctx bucket resp Hb Hr), Hflat.
  rewrite for_instances_app. unfold bind.
  rewrite (for_instances_ok (timestamp w) before recs [] (after_clock w) Hbefore).
  now rewrite (for_instances_missing_key (timestamp w) inst after k _ _ Hk).
Qed.

Lemma key_error_names_the_first_absent_key_witness :
  invoke (world_of (Returned no_name_then_no_id)) scheduled_event context_a =
  (Raised (KeyError "Name"),
   {| log := [DescribeInstances; UtcNow noon]; clock_reads := 1 |}).
Proof.
  apply (key_error_names_the_first_absent_key
           (world_of (Returned no_name_then_no_id)) scheduled_event context_a
           "status-logs" no_name_then_no_id
           [descriptor "i-001" 16 "running"]
           [ {| InstanceId := None; State := None |} ]
           {| InstanceId := Some "i-002";
              State := Some {| Code := Some 16%Z; Name := None |} |}
           [("i-001", "running")] "Name");
    reflexivity.
Defined.

(** ** The shape of the stored report *)

Lemma encode_join_head (l : string) (ls : list string) :
  exists tail, encode_utf8 (str_join LF (l :: ls)) = (encode_utf8 l ++ tail)%list.
Proof.
  destruct ls as [|l' ls].
  - exists []. cbn. now rewrite app_nil_r.
  - exists (encode_utf8 (LF ++ str_join LF (l' :: ls))).
    change (str_join LF (l :: l' :: ls)) with (l ++ LF ++ str_join LF (l' :: ls)).
    apply encode_utf8_app.
Qed.

Lemma report_lines_prefix (ts : string) (recs : list (string * string)) :
  forall line, In line (report_lines ts recs) ->
    exists rest, line = ts ++ " - " ++ rest.
Proof.
  intros line Hin. destruct recs as [|r recs].
  - destruct Hin as [<-|[]]. now exists "no instances found".
  - unfold report_lines in Hin. apply in_map_iff in Hin as (r' & <- & _).
    now exists (fst r' ++ " - " ++ snd r').
Qed.

(** X11.  Every line of a stored report (the lines of the answer that
    are joined into the body, the sentinel line included) begins with the
    timestamp that is in the key, followed by [" - "]; the body is never
    empty and itself begins with that timestamp.  When no instance id or
    state name holds a line feed, every newline-separated record of the
    stored object begins with that timestamp. *)
Theorem every_line_starts_with_the_timestamp
    (w : world) (ev : json) (ctx : LambdaContext)
    (bucket key : string) (body : list byte) :
  In (PutObject bucket key body) (log (snd (invoke w ev ctx))) ->
  key = "logs/ec2_status_" ++ timestamp w ++ ".txt" /\
  (exists resp recs,
      describe_instances w = Returned resp /\
      records_of (flatten resp) = Some recs /\
      body = encode_utf8 (str_join LF (report_lines (timestamp w) recs)) /\
      report_lines (timestamp w) recs <> [] /\
      (forall line, In line (report_lines (timestamp w) recs) ->
         exists rest, line = timestamp w ++ " - " ++ rest) /\
      (response_newline_free resp = true ->
       forall record, In record (bytes_split newline body) ->
         exists tail,
           record = (encode_utf8 (timestamp w) ++ encode_utf8 " - " ++ tail)%list)) /\
  body <> [] /\
  exists tail, body = (encode_utf8 (timestamp w) ++ encode_utf8 " - " ++ tail)%list.
Proof.
  destruct (invoke_shape w ev ctx) as [| | |bucket' resp recs Hb Hr Hrecs];
    cbn [snd log initial after_listing after_clock after_write].
  - intros [].
  - intros [E|[]]; discriminate.
  - intros [E|[E|[]]]; discriminate.
  - intros [E|[E|[E|[]]]]; try discriminate.
    injection E as _ <- <-. split; [reflexivity|].
    assert (Htail : exists tail,
               encode_utf8 (str_join LF (report_lines (timestamp w) recs)) =
               (encode_utf8 (timestamp w) ++ encode_utf8 " - " ++ tail)%list).
    { destruct (report_lines (timestamp w) recs) as [|l ls] eqn:Hlines;
        [destruct recs; discriminate|].
      destruct (report_lines_prefix (timestamp w) recs l) as (rest & ->);
        [rewrite Hlines; now left|].
      destruct (encode_join_head (timestamp w ++ " - " ++ rest) ls) as (tail & ->).
      exists (encode_utf8 rest ++ tail)%list.
      now rewrite !encode_utf8_app, <- !app_assoc. }
    split; [|split; [|exact Htail]].
    + exists resp, recs. split; [assumption|]. split; [assumption|].
      split; [reflexivity|]. split; [destruct recs; discriminate|].
      split; [apply report_lines_prefix|].
      intros Hnf record Hin.
      rewrite (report_records (timestamp w) resp recs
                 (strftime_newline_free (clock w 0)) Hrecs Hnf) in Hin.
      apply in_map_iff in Hin as (line & <- & Hline).
      destruct (report_lines_prefix (timestamp w) recs line Hline) as (rest & ->).
      exists (encode_utf8 rest). now rewrite !encode_utf8_app.
    + destruct Htail as (tail & ->).
      intros H. apply app_eq_nil in H as [_ H].
      apply app_eq_nil in H as [H _]. discriminate.
Qed.

Lemma every_line_starts_with_the_timestamp_witness :
  exists resp recs,
    Returned two_instances = Returned resp /\
    records_of (flatten resp) = Some recs /\
    encode_utf8 ("2024-03-01T12-00-00Z - i-001 - running" ++ LF ++
                 "2024-03-01T12-00-00Z - i-002 - stopped") =
      encode_utf8 (str_join LF (report_lines "2024-03-01T12-00-00Z" recs)) /\
    report_lines "2024-03-01T12-00-00Z" recs <> [] /\
    (forall line, In line (report_lines "2024-03-01T12-00-00Z" recs) ->
       exists rest, line = "2024-03-01T12-00-00Z" ++ " - " ++ rest) /\
    (response_newline_free resp = true ->
     forall record,
       In record
         (bytes_split newline
            (encode_utf8 ("2024-03-01T12-00-00Z - i-001 - running" ++ LF ++
                          "2024-03-01T12-00-00Z - i-002 - stopped"))) ->
       exists tail,
         record = (encode_utf8 "2024-03-01T12-00-00Z" ++ encode_utf8 " - " ++ tail)%list).
Proof.
  destruct (every_line_starts_with_the_timestamp
              (world_of (Returned two_instances)) scheduled_event context_a
              "status-logs" "logs/ec2_status_2024-03-01T12-00-00Z.txt"
              (encode_utf8 ("2024-03-01T12-00-00Z - i-001 - running" ++ LF ++
                            "2024-03-01T12-00-00Z - i-002 - stopped")))
    as (_ & Hlines & _).
  - vm_compute. right. right. left. reflexivity.
  - exact Hlines.
Defined.

(** ** Concatenated listings *)

Lemma records_of_app (a b : list Instance) :
  forall ra rb,
    records_of a = Some ra -> records_of b = Some rb ->
    records_of (a ++ b) = Some (ra ++ rb)%list.
Proof.
  induction a as [|x a IH]; intros ra rb Ha Hb; cbn in Ha.
  - now injection Ha as <-.
  - cbn. destruct (record_of x) as [rx|]; [|discriminate].
    destruct (records_of a) as [ra'|]; [|discriminate].
    injection Ha as <-. now rewrite (IH ra' rb eq_refl Hb).
Qed.

Lemma str_app_assoc (a b c : string) : (a ++ b) ++ c = a ++ b ++ c.
Proof.
  induction a as [|x a IH]; [reflexivity|].
  change (String x ((a ++ b) ++ c) = String x (a ++ b ++ c)). now rewrite IH.
Qed.

Lemma str_join_app (sep : string) (l1 l2 : list string) :
  l1 <> [] -> l2 <> [] ->
  str_join sep (l1 ++ l2) = str_join sep l1 ++ sep ++ str_join sep l2.
Proof.
  intros H1 H2. induction l1 as [|x l1 IH]; [congruence|].
  destruct l1 as [|y l1].
  - destruct l2 as [|z l2]; [congruence|]. reflexivity.
  - change (str_join sep ((x :: y :: l1) ++ l2))
      with (x ++ sep ++ str_join sep ((y :: l1) ++ l2)).
    rewrite IH by discriminate.
    change (str_join sep (x :: y :: l1)) with (x ++ sep ++ str_join sep (y :: l1)).
    now rewrite !str_app_assoc.
Qed.

(** X13.  When the flattened sequence of a response is that of a first
    response followed by that of a second, both nonempty and well formed,
    the stored report is the report of the first, a line feed, and the
    report of the second, under the same key. *)
Theorem report_of_concatenated_listings
    (w : world) (ev : json) (ctx : LambdaContext) (bucket : string)
    (resp1 resp2 resp : DescribeInstancesResult)
    (recs1 recs2 : list (string * string)) :
  environ w !! "LOG_BUCKET" = Some bucket ->
  flatten resp = (flatten resp1 ++ flatten resp2)%list ->
  records_of (flatten resp1) = Some recs1 -> flatten resp1 <> [] ->
  records_of (flatten resp2) = Some recs2 -> flatten resp2 <> [] ->
  exists body1 body2,
    writes (log (snd (invoke (with_response w resp1) ev ctx))) =
      [(object_key (timestamp w), body1)] /\
    writes (log (snd (invoke (with_response w resp2) ev ctx))) =
      [(object_key (timestamp w), body2)] /\
    writes (log (snd (invoke (with_response w resp) ev ctx))) =
      [(object_key (timestamp w), (body1 ++ newline :: body2)%list)].
Proof.
  intros Hb Hflat Hr1 Hne1 Hr2 Hne2.
  assert (Hrecs : records_of (flatten resp) = Some (recs1 ++ recs2)%list)
    by (rewrite Hflat; now apply records_of_app).
  assert (Hn1 : recs1 <> []).
  { intros ->. apply records_of_length in Hr1.
    destruct (flatten resp1); [congruence|discriminate]. }
  assert (Hn2 : recs2 <> []).
  { intros ->. apply records_of_length in Hr2.
    destruct (flatten resp2); [congruence|discriminate]. }
  exists (encode_utf8 (str_join LF (report_lines (timestamp w) recs1))),
         (encode_utf8 (str_join LF (report_lines (timestamp w) recs2))).
  rewrite (invoke_written (with_response w resp1) ev ctx bucket resp1 recs1 Hb eq_refl Hr1).
  rewrite (invoke_written (with_response w resp2) ev ctx bucket resp2 recs2 Hb eq_refl Hr2).
  rewrite (invoke_written (with_response w resp) ev ctx bucket resp _ Hb eq_refl Hrecs).
  split; [reflexivity|]. split; [reflexivity|].
  unfold after_write. cbn [snd log writes].
  change (timestamp (with_response w resp)) with (timestamp w).
  rewrite (report_lines_nonempty _ recs1 Hn1), (report_lines_nonempty _ recs2 Hn2).
  rewrite (report_lines_nonempty _ (recs1 ++ recs2))
    by (destruct recs1; [congruence|discriminate]).
  rewrite map_app, str_join_app
    by (destruct recs1, recs2; try congruence; discriminate).
  now rewrite !encode_utf8_app.
Qed.

Lemma report_of_concatenated_listings_witness :
  exists body1 body2,
    writes (log (snd (invoke (with_response (world_of (Raised access_denied)) two_instances)
                        scheduled_event context_a))) =
      [(object_key "2024-03-01T12-00-00Z", body1)] /\
    writes (log (snd (invoke (with_response (world_of (Raised access_denied)) three_instances)
                        scheduled_event context_a))) =
      [(object_key "2024-03-01T12-00-00Z", body2)] /\
    writes (log (snd (invoke (with_response (world_of (Raised access_denied))
                                (answer (reservations_of two_instances ++
                                         reservations_of three_instances)))
                        scheduled_event context_a))) =
      [(object_key "2024-03-01T12-00-00Z", (body1 ++ newline :: body2)%list)].
Proof.
  apply (report_of_concatenated_listings
           (world_of (Raised access_denied)) scheduled_event context_a "status-logs"
           two_instances three_instances
           (answer (reservations_of two_instances ++ reservations_of three_instances))
           [("i-001", "running"); ("i-002", "stopped")]
           [("i-001", "running"); ("i-002", "stopped"); ("i-003", "pending")]);
    [reflexivity | reflexivity | reflexivity | discriminate | reflexivity | discriminate].
Defined.

(** ** Keys and seconds *)

Lemma str_length_app (a b : string) :
  String.length (a ++ b) = String.length a + String.length b.
Proof.
  induction a as [|x a IH]; [reflexivity|].
  change (S (String.length (a ++ b)) = S (String.length a + String.length b)).
  now rewrite IH.
Qed.

(** Equal concatenations with heads of equal length have equal parts. *)
Lemma append_eq_length (a a' r r' : string) :
  String.length a = String.length a' ->
  a ++ r = a' ++ r' -> a = a' /\ r = r'.
Proof.
  revert a'. induction a as [|x a IH]; intros [|x' a'] Hlen H; try discriminate.
  - auto.
  - change (String x (a ++ r) = String x' (a' ++ r')) in H.
    injection H as -> H. injection Hlen as Hlen.
    destruct (IH a' Hlen H) as [-> ->]. auto.
Qed.

Lemma append_inv_tail (a b c : string) : a ++ c = b ++ c -> a = b.
Proof.
  intros H. apply (append_eq_length a b c c); [|assumption].
  apply (f_equal String.length) in H. rewrite !str_length_app in H. lia.
Qed.

Lemma object_key_inj (ts1 ts2 : string) :
  object_key ts1 = object_key ts2 -> ts1 = ts2.
Proof.
  unfold object_key. intros H.
  apply append_eq_length in H as [_ H]; [|reflexivity].
  now apply append_inv_tail in H.
Qed.

Lemma digits_exactly_length (k : nat) (s : string) :
  digits_exactly k s = true -> String.length s = k.
Proof.
  unfold digits_exactly. intros H. apply andb_prop in H as [H _].
  now apply Nat.eqb_eq.
Qed.

Lemma digits_value_zeros (k : nat) (s : string) :
  digits_value (zeros k ++ s) = digits_value s.
Proof.
  induction k as [|k IH]; [reflexivity|].
  change (zeros (S k) ++ s) with (String "0" (zeros k ++ s)).
  unfold digits_value in *. cbn [NilEmpty.uint_of_string].
  destruct (NilEmpty.uint_of_string (zeros k ++ s)) as [u|]; [|exact IH].
  exact IH.
Qed.

(** Reading back a zero-filled number gives the number. *)
Lemma digits_value_zfill (width : nat) (n : N) :
  digits_value (zfill width (str_of_int n)) = n.
Proof.
  unfold zfill. rewrite digits_value_zeros.
  unfold digits_value, str_of_int. rewrite NilEmpty.usu.
  apply DecimalN.Unsigned.of_to.
Qed.

Lemma zfill_inj (width : nat) (n m : N) :
  zfill width (str_of_int n) = zfill width (str_of_int m) -> n = m.
Proof.
  intros H. apply (f_equal digits_value) in H.
  now rewrite !digits_value_zfill in H.
Qed.

Lemma zfill2_length (n m : N) :
  (n <= 99)%N -> (m <= 99)%N ->
  String.length (zfill 2 (str_of_int n)) = String.length (zfill 2 (str_of_int m)).
Proof.
  intros Hn Hm.
  now rewrite !(digits_exactly_length 2) by now apply zfill2_two_digits.
Qed.

Lemma str_of_int_inj (n m : N) : str_of_int n = str_of_int m -> n = m.
Proof. exact (zfill_inj 0 n m). Qed.

(** Two strings of digits, each followed by a dash: the first dash ends
    the digits, so equal wholes have equal parts. *)
Lemma digits_then_dash (a a' r r' : string) :
  str_all is_digit a = true -> str_all is_digit a' = true ->
  a ++ "-" ++ r = a' ++ "-" ++ r' -> a = a' /\ r = r'.
Proof.
  revert a'. induction a as [|x a IH]; intros [|x' a'] Ha Ha' H.
  - change (String "-" r = String "-" r') in H. injection H as ->. auto.
  - change (String "-" r = String x' (a' ++ "-" ++ r')) in H.
    injection H as <- _. discriminate.
  - change (String x (a ++ "-" ++ r) = String "-" r') in H.
    injection H as -> _. discriminate.
  - change (String x (a ++ "-" ++ r) = String x' (a' ++ "-" ++ r')) in H.
    injection H as -> H.
    change (is_digit x' && str_all is_digit a = true) in Ha.
    change (is_digit x' && str_all is_digit a' = true) in Ha'.
    apply andb_prop in Ha as [_ Ha]. apply andb_prop in Ha' as [_ Ha'].
    destruct (IH a' Ha Ha' H) as [-> ->]. auto.
Qed.

Lemma valid_datetime_bounds (d : datetime) :
  valid_datetime d = true ->
  (year d <= 9999 /\ month d <= 99 /\ day d <= 99 /\
   hour d <= 99 /\ minute d <= 99 /\ second d <= 99)%N.
Proof.
  unfold valid_datetime. rewrite !Bool.andb_true_iff, !N.leb_le. lia.
Qed.

(** The timestamp determines the second it was formatted from. *)
Lemma strftime_inj (d1 d2 : datetime) :
  valid_datetime d1 = true -> valid_datetime d2 = true ->
  strftime TS_FORMAT d1 = strftime TS_FORMAT d2 -> same_second d1 d2.
Proof.
  intros V1 V2 H.
  apply valid_datetime_bounds in V1 as (Y1 & M1 & D1 & H1 & N1 & S1).
  apply valid_datetime_bounds in V2 as (Y2 & M2 & D2 & H2 & N2 & S2).
  rewrite !strftime_unfold in H.
  apply digits_then_dash in H as [Ey H]; try apply str_of_int_digits.
  apply append_eq_length in H as [Em H]; [|now apply zfill2_length].
  apply append_eq_length in H as [_ H]; [|reflexivity].
  apply append_eq_length in H as [Ed H]; [|now apply zfill2_length].
  apply append_eq_length in H as [_ H]; [|reflexivity].
  apply append_eq_length in H as [Eh H]; [|now apply zfill2_length].
  apply append_eq_length in H as [_ H]; [|reflexivity].
  apply append_eq_length in H as [En H]; [|now apply zfill2_length].
  apply append_eq_length in H as [_ H]; [|reflexivity].
  apply append_eq_length in H as [Es _]; [|now apply zfill2_length].
  unfold same_second.
  repeat split; (now apply str_of_int_inj) || (eapply zfill_inj; eassumption).
Qed.

(** X10.  For instants a [datetime] can hold, two invocations use the same
    storage key exactly when their clock readings fall in the same second:
    readings in different seconds never share a key, readings within one
    second always do. *)
Theorem same_key_iff_same_second (d1 d2 : datetime) :
  valid_datetime d1 = true ->
  valid_datetime d2 = true ->
  (object_key (strftime "%Y-%m-%dT%H-%M-%SZ" d1) =
   object_key (strftime "%Y-%m-%dT%H-%M-%SZ" d2)
   <-> same_second d1 d2).
Proof.
  intros V1 V2. split.
  - intros H. apply object_key_inj in H. now apply strftime_inj.
  - intros H. f_equal. now apply strftime_same_second.
Qed.

Lemma same_key_iff_same_second_witness :
  (object_key (strftime "%Y-%m-%dT%H-%M-%SZ" noon) =
   object_key (strftime "%Y-%m-%dT%H-%M-%SZ" noon_later)
   <-> same_second noon noon_later) /\
  (object_key (strftime "%Y-%m-%dT%H-%M-%SZ" noon) =
   object_key (strftime "%Y-%m-%dT%H-%M-%SZ" noon_next_second)
   <-> same_second noon noon_next_second).
Proof.
  split.
  - apply (same_key_iff_same_second noon noon_later); reflexivity.
  - apply (same_key_iff_same_second noon noon_next_second); reflexivity.
Defined.

(** ** The sentinel line *)

Lemma encode_utf8_inj (a b : string) : encode_utf8 a = encode_utf8 b -> a = b.
Proof.
  intros H. apply (f_equal string_of_list_byte) in H.
  unfold encode_utf8 in H. now rewrite !string_of_list_byte_of_string in H.
Qed.

Lemma prefix_append (sep rest : string) : String.prefix sep (sep ++ rest) = true.
Proof.
  induction sep as [|c sep IH]; [destruct rest; reflexivity|].
  change (String.prefix (String c sep) (String c (sep ++ rest)) = true).
  cbn [String.prefix]. now destruct (ascii_dec c c).
Qed.

Lemma str_contains_infix (sep a b : string) :
  str_contains sep (a ++ sep ++ b) = true.
Proof.
  induction a as [|c a IH].
  - change ("" ++ sep ++ b) with (sep ++ b).
    destruct (sep ++ b) eqn:E; cbn [str_contains];
      rewrite <- E, prefix_append; reflexivity.
  - change (String c a ++ sep ++ b) with (String c (a ++ sep ++ b)).
    cbn [str_contains]. rewrite IH. apply Bool.orb_true_r.
Qed.

(** No instance line is the sentinel line. *)
Lemma format_line_not_sentinel (ts : string) (r : string * string) :
  format_line ts r <> sentinel ts.
Proof.
  unfold format_line, sentinel. intros H.
  apply append_eq_length in H as [_ H]; [|reflexivity].
  change " - no instances found" with (" - " ++ "no instances found") in H.
  apply append_eq_length in H as [_ H]; [|reflexivity].
  apply (f_equal (str_contains " - ")) in H.
  rewrite str_contains_infix in H. discriminate.
Qed.

(** X12.  The report of an empty inventory differs from the report of any
    inventory with instances taken at the same instant: whatever the ids
    and state names are, no instance line equals the sentinel line. *)
Theorem empty_report_differs_from_instance_reports
    (w : world) (ev : json) (ctx : LambdaContext) (bucket : string)
    (resp0 resp : DescribeInstancesResult) (recs : list (string * string)) :
  environ w !! "LOG_BUCKET" = Some bucket ->
  flatten resp0 = [] ->
  records_of (flatten resp) = Some recs ->
  flatten resp <> [] ->
  exists body0 body,
    writes (log (snd (invoke (with_response w resp0) ev ctx))) =
      [(object_key (timestamp w), body0)] /\
    writes (log (snd (invoke (with_response w resp) ev ctx))) =
      [(object_key (timestamp w), body)] /\
    body0 = encode_utf8 (timestamp w ++ " - no instances found") /\
    body0 <> body.
Proof.
  intros Hb Hflat0 Hrecs Hne.
  assert (Hrecs0 : records_of (flatten resp0) = Some []) by now rewrite Hflat0.
  rewrite (invoke_written (with_response w resp0) ev ctx bucket resp0 [] Hb eq_refl Hrecs0).
  rewrite (invoke_written (with_response w resp) ev ctx bucket resp recs Hb eq_refl Hrecs).
  do 2 eexists. split; [reflexivity|]. split; [reflexivity|]. split; [reflexivity|].
  change (timestamp (with_response w resp0)) with (timestamp w).
  change (timestamp (with_response w resp)) with (timestamp w).
  intros H. apply encode_utf8_inj in H.
  change (sentinel (timestamp w) =
          str_join LF (report_lines (timestamp w) recs)) in H.
  destruct recs as [|r [|r' recs]].
  - apply records_of_length in Hrecs. destruct (flatten resp); [congruence|discriminate].
  - change (sentinel (timestamp w) = format_line (timestamp w) r) in H.
    symmetry in H. now apply format_line_not_sentinel in H.
  - change (sentinel (timestamp w) =
            format_line (timestamp w) r ++ LF ++
            str_join LF (map (format_line (timestamp w)) (r' :: recs))) in H.
    apply (f_equal newline_free) in H.
    rewrite (sentinel_newline_free (timestamp w)
               (strftime_newline_free (clock w 0))) in H.
    rewrite !newline_free_app in H.
    change (newline_free LF) with false in H.
    rewrite Bool.andb_false_l, Bool.andb_false_r in H. discriminate.
Qed.

Lemma empty_report_differs_from_instance_reports_witness :
  exists body0 body,
    writes (log (snd (invoke (with_response (world_of (Raised access_denied))
                                no_reservations_key)
                        scheduled_event context_a))) =
      [(object_key "2024-03-01T12-00-00Z", body0)] /\
    writes (log (snd (invoke (with_response (world_of (Raised access_denied))
                                two_instances)
                        scheduled_event context_a))) =
      [(object_key "2024-03-01T12-00-00Z", body)] /\
    body0 = encode_utf8 ("2024-03-01T12-00-00Z" ++ " - no instances found") /\
    body0 <> body.
Proof.
  apply (empty_report_differs_from_instance_reports
           (world_of (Raised access_denied)) scheduled_event context_a "status-logs"
           no_reservations_key two_instances
           [("i-001", "running"); ("i-002", "stopped")]);
    [reflexivity | reflexivity | reflexivity | discriminate].
Defined.
